(** * Primis SDK (Python): transport/error layer and job polling

    A shallow embedding of [src/sdk/python/src/primis/exceptions.py] and of
    the parts of [src/sdk/python/src/primis/client.py] that carry control
    flow: [HttpClient.__init__], [HttpClient.request], [ImagesResource.get_job],
    [ImagesResource.wait_for_job], [Primis.__init__] and [Primis.base_url].

    Python values are a small inductive type; exceptions are records tagged
    with their class; the outside world (the wall clock, the HTTP server, the
    list of effects performed so far) is threaded explicitly through a small
    reader/state/error monad. *)

From Stdlib Require Import List String Ascii Bool Arith ZArith QArith Lia Lqa.
From Stdlib Require Import DecimalString.
Import ListNotations.

Local Open Scope string_scope.
Local Open Scope Z_scope.

(* ===================================================================== *)
(** ** Python values and the string primitives the client uses           *)
(* ===================================================================== *)

(** What [response.json()] can produce.  A dict is kept as its list of
    items (keys of a parsed dict are unique); a float is idealised as a
    rational. *)
#[local] Set Warnings "-register-all".

Inductive py : Type :=
| PyNone
| PyBool (b : bool)
| PyInt (z : Z)
| PyFloat (q : Q)
| PyStr (s : string)
| PyList (l : list py)
| PyDict (items : list (string * py)).

(** [str(n)] for an [int]. *)
Definition str_of_int (z : Z) : string := NilZero.string_of_int (Z.to_int z).

(** [s.startswith(p)]. *)
Definition startswith (s p : string) : bool := String.prefix p s.

(** [s.endswith(p)]. *)
Definition endswith (s p : string) : bool :=
  (String.length p <=? String.length s)%nat
  && String.eqb (String.substring (String.length s - String.length p) (String.length p) s) p.

(** [s.rstrip("/")]: every trailing ['/'] is removed. *)
Fixpoint rstrip_slash (s : string) : string :=
  match s with
  | EmptyString => EmptyString
  | String c rest =>
      match rstrip_slash rest with
      | EmptyString => if Ascii.eqb c "/" then EmptyString else String c EmptyString
      | kept => String c kept
      end
  end.

(** One [ascii] is one code point below 256: header names and values reach
    the client decoded as latin-1. *)
Definition code_point (c : ascii) : nat := nat_of_ascii c.

(** [c.lower()] on latin-1 code points. *)
Definition lower_char (c : ascii) : ascii :=
  let n := code_point c in
  if ((65 <=? n) && (n <=? 90))%nat then ascii_of_nat (n + 32)
  else if ((192 <=? n) && (n <=? 222) && negb (n =? 215))%nat then ascii_of_nat (n + 32)
  else c.

Fixpoint lower (s : string) : string :=
  match s with
  | EmptyString => EmptyString
  | String c rest => String (lower_char c) (lower rest)
  end.

(** The blanks [int()] skips around a literal: the ASCII blanks of C
    (tab to carriage return, and the space) and, above 127, the code points
    Unicode calls white space (0x85 and 0xA0 in latin-1).  The separators
    0x1C to 0x1F are not among them. *)
Definition is_int_blank (c : ascii) : bool :=
  let n := code_point c in
  (((9 <=? n) && (n <=? 13)) || (n =? 32) || (n =? 133) || (n =? 160))%nat.

Fixpoint skip_blanks (s : string) : string :=
  match s with
  | EmptyString => EmptyString
  | String c rest => if is_int_blank c then skip_blanks rest else s
  end.

Fixpoint drop_trailing_blanks (s : string) : string :=
  match s with
  | EmptyString => EmptyString
  | String c rest =>
      match drop_trailing_blanks rest with
      | EmptyString => if is_int_blank c then EmptyString else String c EmptyString
      | kept => String c kept
      end
  end.

(** The literal without the blanks before and after it. *)
Definition int_literal (s : string) : string := drop_trailing_blanks (skip_blanks s).

Definition digit_value (c : ascii) : option Z :=
  let n := code_point c in
  if ((48 <=? n) && (n <=? 57))%nat then Some (Z.of_nat (n - 48)) else None.

(** The digit part of a base-10 integer literal: digits, with single
    underscores allowed between two digits.  [after_digit] says whether the
    previous character was a digit. *)
Fixpoint int_digits (acc : Z) (after_digit : bool) (s : string) : option Z :=
  match s with
  | EmptyString => if after_digit then Some acc else None
  | String c rest =>
      match digit_value c with
      | Some d => int_digits (10 * acc + d) true rest
      | None =>
          if Ascii.eqb c "_" && after_digit then
            match rest with
            | EmptyString => None
            | String c' _ =>
                match digit_value c' with
                | Some _ => int_digits acc false rest
                | None => None
                end
            end
          else None
      end
  end.

(** The number of decimal digits in a literal. *)
Fixpoint count_digits (s : string) : nat :=
  match s with
  | EmptyString => O
  | String c rest =>
      match digit_value c with
      | Some _ => S (count_digits rest)
      | None => count_digits rest
      end
  end.

(** The default of [sys.int_max_str_digits]: a literal with more digits is
    refused with [ValueError]. *)
Definition int_max_str_digits : nat := 4300.

(** The literal read as a number, whatever its length. *)
Definition parse_int_literal (s : string) : option Z :=
  match int_literal s with
  | String "+" rest => int_digits 0 false rest
  | String "-" rest => option_map Z.opp (int_digits 0 false rest)
  | body => int_digits 0 false body
  end.

(** [int(s)] for a [str]: blanks around the literal are dropped, one sign
    is allowed, leading zeros are accepted, and a well-formed literal of more
    than [int_max_str_digits] digits is refused; [None] stands for
    [ValueError]. *)
Definition int_of_str (s : string) : option Z :=
  match parse_int_literal s with
  | Some n => if (int_max_str_digits <? count_digits s)%nat then None else Some n
  | None => None
  end.

(** [x == s] for a string [s]: only a [str] can be equal to a [str]. *)
Definition py_eq_str (x : py) (s : string) : bool :=
  match x with
  | PyStr t => String.eqb t s
  | _ => false
  end.

(** [x in (s1, s2, ...)] for a tuple of strings. *)
Definition py_in_strs (x : py) (candidates : list string) : bool :=
  existsb (py_eq_str x) candidates.

(** Lookup in the items of a dict. *)
Fixpoint lookup {V : Type} (key : string) (items : list (string * V)) : option V :=
  match items with
  | [] => None
  | (k, v) :: rest => if String.eqb k key then Some v else lookup key rest
  end.

(* ===================================================================== *)
(** ** exceptions.py                                                     *)
(* ===================================================================== *)

(** The five classes of [exceptions.py], the built-in classes that the
    client's own statements can raise, and the classes of [requests] (by
    name) that [session.request] can raise. *)
Inductive exception_class : Type :=
| cls_PrimisError
| cls_PrimisAPIError
| cls_PrimisTimeoutError
| cls_PrimisAuthError
| cls_PrimisRateLimitError
| cls_AttributeError
| cls_ValueError
| cls_KeyError
| cls_TypeError
| cls_requests (name : string).

Definition exception_class_eqb (a b : exception_class) : bool :=
  match a, b with
  | cls_PrimisError, cls_PrimisError
  | cls_PrimisAPIError, cls_PrimisAPIError
  | cls_PrimisTimeoutError, cls_PrimisTimeoutError
  | cls_PrimisAuthError, cls_PrimisAuthError
  | cls_PrimisRateLimitError, cls_PrimisRateLimitError
  | cls_AttributeError, cls_AttributeError
  | cls_ValueError, cls_ValueError
  | cls_KeyError, cls_KeyError
  | cls_TypeError, cls_TypeError => true
  | cls_requests a, cls_requests b => String.eqb a b
  | _, _ => false
  end.

(** The direct base class named in each [class] statement ([None] for the
    classes whose base lies outside the module's hierarchy). *)
Definition base_class (c : exception_class) : option exception_class :=
  match c with
  | cls_PrimisAPIError => Some cls_PrimisError
  | cls_PrimisTimeoutError => Some cls_PrimisError
  | cls_PrimisAuthError => Some cls_PrimisAPIError
  | cls_PrimisRateLimitError => Some cls_PrimisAPIError
  | _ => None
  end.

Fixpoint issubclass_fuel (n : nat) (c ancestor : exception_class) : bool :=
  exception_class_eqb c ancestor ||
  match n with
  | O => false
  | S n' =>
      match base_class c with
      | Some b => issubclass_fuel n' b ancestor
      | None => false
      end
  end.

(** [issubclass(c, ancestor)]; the hierarchy is two levels deep. *)
Definition issubclass (c ancestor : exception_class) : bool :=
  issubclass_fuel 2 c ancestor.

(** An exception object: its class and the attributes its [__init__] sets.
    An attribute the class does not define is [None]. *)
Record exception : Type := mk_exception {
  exc_class : exception_class;
  message : py;
  code : option py;
  status_code : option Z;
  retry_after : option Z
}.

Definition isinstance (e : exception) (c : exception_class) : bool :=
  issubclass (exc_class e) c.

(** [PrimisError.__init__(self, message, code)] *)
Definition PrimisError_init (cls : exception_class) (msg code_ : py) : exception :=
  {| exc_class := cls; message := msg; code := Some code_;
     status_code := None; retry_after := None |}.

(** [PrimisAPIError.__init__(self, message, code, status_code)] *)
Definition PrimisAPIError_init (cls : exception_class) (msg code_ : py)
    (status : Z) : exception :=
  let self := PrimisError_init cls msg code_ in
  {| exc_class := exc_class self; message := message self; code := code self;
     status_code := Some status; retry_after := retry_after self |}.

(** [PrimisError(message, code="UNKNOWN")] and the four subclasses, each
    calling its parent's [__init__] the way the source does. *)
Definition PrimisError (msg code_ : py) : exception :=
  PrimisError_init cls_PrimisError msg code_.

Definition PrimisError_default_code : py := PyStr "UNKNOWN".

Definition PrimisAPIError (msg code_ : py) (status : Z) : exception :=
  PrimisAPIError_init cls_PrimisAPIError msg code_ status.

(** [PrimisTimeoutError.__init__]: [super().__init__(message, "TIMEOUT")] *)
Definition PrimisTimeoutError (msg : py) : exception :=
  PrimisError_init cls_PrimisTimeoutError msg (PyStr "TIMEOUT").

(** [PrimisAuthError.__init__]: [super().__init__(message, "AUTH_ERROR", 401)] *)
Definition PrimisAuthError (msg : py) : exception :=
  PrimisAPIError_init cls_PrimisAuthError msg (PyStr "AUTH_ERROR") 401.

(** [PrimisRateLimitError.__init__]: [self.retry_after = retry_after], then
    [super().__init__(message, "RATE_LIMIT_EXCEEDED", 429)] *)
Definition PrimisRateLimitError (msg : py) (retry : Z) : exception :=
  let self := PrimisAPIError_init cls_PrimisRateLimitError msg
                (PyStr "RATE_LIMIT_EXCEEDED") 429 in
  {| exc_class := exc_class self; message := message self; code := code self;
     status_code := status_code self; retry_after := Some retry |}.

(** An exception of Python or of a library: only its class and its text. *)
Definition builtin_exception (cls : exception_class) (text : string) : exception :=
  {| exc_class := cls; message := PyStr text; code := None;
     status_code := None; retry_after := None |}.

(** The typed errors of the library are the instances of [PrimisError]. *)
Definition is_typed (e : exception) : bool := isinstance e cls_PrimisError.

(* ===================================================================== *)
(** ** The [requests] objects the client touches                         *)
(* ===================================================================== *)

Module Response.

(** What the client reads of a [requests.Response]: the status, the
    headers (the items of a case-insensitive dict) and the result of
    [response.json()], [None] when that call raises [ValueError]. *)
Record t : Type := make {
  status_code : Z;
  headers : list (string * string);
  json : option py
}.

(** [response.ok]: [raise_for_status()] raises for 400 <= status < 600. *)
Definition ok (r : t) : bool :=
  negb ((400 <=? status_code r) && (status_code r <? 600)).

(** [response.headers.get(name)]: the lookup ignores case. *)
Fixpoint headers_get (name : string) (hs : list (string * string)) : option string :=
  match hs with
  | [] => None
  | (k, v) :: rest =>
      if String.eqb (lower k) (lower name) then Some v else headers_get name rest
  end.

End Response.

Module Request.

(** The keyword arguments of [session.request], with the headers the
    session adds to every request. *)
Record t : Type := make {
  method : string;
  url : string;
  json : option py;
  params : option py;
  timeout : Z;
  headers : list (string * string)
}.

End Request.

(** How [session.request] ends: with a response, with [requests.Timeout]
    (the first [except] clause, which also catches [ConnectTimeout]), with
    another [requests.ConnectionError], whose text is kept, or with any other
    exception ([InvalidSchema], [MissingSchema], [TooManyRedirects],
    [ChunkedEncodingError], ...), which no [except] clause catches. *)
Inductive transport_result : Type :=
| Responded (response : Response.t)
| Raises_Timeout
| Raises_ConnectionError (text : string)
| Raises_Other (name text : string).

(* ===================================================================== *)
(** ** The world: clock, server, and the effects performed               *)
(* ===================================================================== *)

Inductive Event : Type :=
| EvRequest (req : Request.t) (res : transport_result)
| EvSleep (seconds : Q).

(** What the program cannot decide: the successive readings of
    [time.time()], how the n-th HTTP request ends, how a float is printed
    inside an f-string, and what the float subtraction [a - b] yields (the
    exact difference rounded to a float).  Times and durations are finite
    floats in the source; each is kept as the rational it denotes, and the one
    float operation that rounds, the subtraction, is taken from the
    environment. *)
Record Env : Type := {
  clock : nat -> Q;
  serve : nat -> Request.t -> transport_result;
  str_of_float : Q -> string;
  float_sub : Q -> Q -> Q
}.

Record World : Type := {
  clock_reads : nat;
  requests_sent : nat;
  trace : list Event
}.

Definition initial_world : World :=
  {| clock_reads := 0; requests_sent := 0; trace := [] |}.

Inductive Outcome (A : Type) : Type :=
| Returned (a : A)
| Raised (e : exception)
| OutOfFuel.

Arguments Returned {A} a.
Arguments Raised {A} e.
Arguments OutOfFuel {A}.

(** Computations read the environment, update the world, and return, raise
    or (loops only) run out of fuel. *)
Definition M (A : Type) : Type := Env -> World -> Outcome A * World.

Definition ret {A} (a : A) : M A := fun _ w => (Returned a, w).

Definition raise {A} (e : exception) : M A := fun _ w => (Raised e, w).

Definition out_of_fuel {A} : M A := fun _ w => (OutOfFuel, w).

(** A pure step that returns or raises without touching the world. *)
Definition lift {A} (o : Outcome A) : M A := fun _ w => (o, w).

Definition bind {A B} (c : M A) (k : A -> M B) : M B :=
  fun env w =>
    match c env w with
    | (Returned a, w') => k a env w'
    | (Raised e, w') => (Raised e, w')
    | (OutOfFuel, w') => (OutOfFuel, w')
    end.

Declare Scope py_scope.
Delimit Scope py_scope with py.
Notation "x <- c ;; k" := (bind c (fun x => k))
  (at level 61, c at next level, right associativity) : py_scope.
Notation "c ;; k" := (bind c (fun _ => k))
  (at level 61, right associativity) : py_scope.
Local Open Scope py_scope.

(** The three ways the world changes. *)
Definition after_clock_read (w : World) : World :=
  {| clock_reads := S (clock_reads w);
     requests_sent := requests_sent w;
     trace := trace w |}.

Definition after_sleep (w : World) (seconds : Q) : World :=
  {| clock_reads := clock_reads w;
     requests_sent := requests_sent w;
     trace := trace w ++ [EvSleep seconds] |}.

Definition after_request (w : World) (req : Request.t) (res : transport_result) : World :=
  {| clock_reads := clock_reads w;
     requests_sent := S (requests_sent w);
     trace := trace w ++ [EvRequest req res] |}.

(** [time.time()] *)
Definition time_time : M Q :=
  fun env w => (Returned (clock env (clock_reads w)), after_clock_read w).

(** [time.sleep(seconds)]; a negative length raises [ValueError]. *)
Definition time_sleep (seconds : Q) : M unit :=
  fun env w =>
    if Qle_bool 0 seconds then (Returned tt, after_sleep w seconds)
    else
      (Raised (builtin_exception cls_ValueError "sleep length must be non-negative"), w).

(** [session.request(...)], its exceptions reified in the result. *)
Definition session_request (req : Request.t) : M transport_result :=
  fun env w =>
    let res := serve env (requests_sent w) req in
    (Returned res, after_request w req res).

(** [f"{x}"] for a float. *)
Definition format_float (x : Q) : M string :=
  fun env w => (Returned (str_of_float env x), w).

(** [a - b] on floats. *)
Definition float_minus (a b : Q) : M Q :=
  fun env w => (Returned (float_sub env a b), w).

Definition type_name (x : py) : string :=
  match x with
  | PyNone => "NoneType"
  | PyBool _ => "bool"
  | PyInt _ => "int"
  | PyFloat _ => "float"
  | PyStr _ => "str"
  | PyList _ => "list"
  | PyDict _ => "dict"
  end.

(** [x.get(key, default)]: only a dict has the method. *)
Definition py_get (x : py) (key : string) (default : py) : Outcome py :=
  match x with
  | PyDict items =>
      match lookup key items with
      | Some v => Returned v
      | None => Returned default
      end
  | _ => Raised (builtin_exception cls_AttributeError
                   ("'" ++ type_name x ++ "' object has no attribute 'get'"))
  end.

(** [x[key]] for a string key. *)
Definition py_getitem (x : py) (key : string) : Outcome py :=
  match x with
  | PyDict items =>
      match lookup key items with
      | Some v => Returned v
      | None => Raised (builtin_exception cls_KeyError key)
      end
  | PyList _ => Raised (builtin_exception cls_TypeError
                          "list indices must be integers or slices, not str")
  | PyStr _ => Raised (builtin_exception cls_TypeError "string indices must be integers")
  | _ => Raised (builtin_exception cls_TypeError
                   ("'" ++ type_name x ++ "' object is not subscriptable"))
  end.

(** [int(x)]: an [int] is returned as it is, a [float] is truncated toward
    zero, a [str] is parsed, anything else is a [TypeError]. *)
Definition py_int (x : py) : Outcome Z :=
  match x with
  | PyInt z => Returned z
  | PyBool b => Returned (if b then 1 else 0)
  | PyFloat q => Returned (Z.quot (Qnum q) (Zpos (Qden q)))
  | PyStr s =>
      match int_of_str s with
      | Some n => Returned n
      | None =>
          match parse_int_literal s with
          | Some _ =>
              Raised (builtin_exception cls_ValueError
                        ("Exceeds the limit (" ++ str_of_int (Z.of_nat int_max_str_digits)
                           ++ " digits) for integer string conversion: value has "
                           ++ str_of_int (Z.of_nat (count_digits s))
                           ++ " digits; use sys.set_int_max_str_digits() to increase the limit"))
          | None =>
              Raised (builtin_exception cls_ValueError
                        ("invalid literal for int() with base 10: '" ++ s ++ "'"))
          end
      end
  | _ => Raised (builtin_exception cls_TypeError
                   ("int() argument must be a string, a bytes-like object or a real number, not '"
                    ++ type_name x ++ "'"))
  end.

(** [headers.get(name, default)] *)
Definition headers_get_or (hs : list (string * string)) (name : string) (default : py) : py :=
  match Response.headers_get name hs with
  | Some v => PyStr v
  | None => default
  end.

(** [d[key] = v] on the items of a dict: an existing key keeps its place,
    a new key goes last. *)
Fixpoint dict_set {V : Type} (key : string) (v : V) (items : list (string * V))
    : list (string * V) :=
  match items with
  | [] => [(key, v)]
  | (k, x) :: rest =>
      if String.eqb k key then (k, v) :: rest else (k, x) :: dict_set key v rest
  end.

(** The truth value of an optional string and of an optional int: [None],
    the empty string and zero are false. *)
Definition truthy_str (x : option string) : bool :=
  match x with
  | Some s => negb (String.eqb s "")
  | None => false
  end.

Definition truthy_int (x : option Z) : bool :=
  match x with
  | Some n => negb (n =? 0)
  | None => false
  end.

(** An optional argument as the value it is. *)
Definition py_of_str (x : option string) : py :=
  match x with
  | Some s => PyStr s
  | None => PyNone
  end.

Definition py_of_int (x : option Z) : py :=
  match x with
  | Some n => PyInt n
  | None => PyNone
  end.

(* ===================================================================== *)
(** ** client.py                                                         *)
(* ===================================================================== *)

Module HttpClient.

Record t : Type := make {
  api_key : string;
  base_url : string;
  timeout : Z;
  session_headers : list (string * string)
}.

Definition default_base_url : string := "http://localhost:3001".
Definition default_timeout : Z := 30.

(** [HttpClient.__init__(self, api_key, base_url, timeout)] *)
Definition __init__ (api_key_ base_url_ : string) (timeout_ : Z) : M t :=
  if negb (startswith api_key_ "prmis_") then
    raise (PrimisError (PyStr "Invalid API key format. Keys must start with 'prmis_'")
             PrimisError_default_code)
  else
    ret {| api_key := api_key_;
           base_url := rstrip_slash base_url_;
           timeout := timeout_;
           session_headers :=
             [("Authorization", "Bearer " ++ api_key_);
              ("Content-Type", "application/json")] |}.

(** The keyword arguments [request] hands to [self.session.request]. *)
Definition request_kwargs (self : t) (method path : string) (json params : option py)
    : Request.t :=
  let url := base_url self ++ path in
  {| Request.method := method;
     Request.url := url;
     Request.json := json;
     Request.params := params;
     Request.timeout := timeout self;
     Request.headers := session_headers self |}.

(** [HttpClient.request(self, method, path, json, params)] *)
Definition request (self : t) (method path : string) (json params : option py) : M py :=
  res <- session_request (request_kwargs self method path json params) ;;
  match res with
  | Raises_Timeout =>
      raise (PrimisTimeoutError (PyStr ("Request to " ++ path ++ " timed out")))
  | Raises_ConnectionError e =>
      raise (PrimisError (PyStr ("Connection error: " ++ e)) (PyStr "CONNECTION_ERROR"))
  | Raises_Other name text =>
      raise (builtin_exception (cls_requests name) text)
  | Responded response =>
      match Response.json response with
      | None =>
          raise (PrimisError (PyStr ("Invalid JSON response from " ++ path))
                   (PyStr "PARSE_ERROR"))
      | Some data =>
          if negb (Response.ok response) then
            error_msg <- lift (py_get data "error"
                           (PyStr ("HTTP " ++ str_of_int (Response.status_code response)))) ;;
            error_code <- lift (py_get data "code" (PyStr "HTTP_ERROR")) ;;
            if Response.status_code response =? 401 then
              raise (PrimisAuthError error_msg)
            else if Response.status_code response =? 429 then
              retry_after_ <- lift (py_int (headers_get_or (Response.headers response)
                                              "Retry-After" (PyInt 60))) ;;
              raise (PrimisRateLimitError error_msg retry_after_)
            else
              raise (PrimisAPIError error_msg error_code (Response.status_code response))
          else
            ret data
      end
  end.

Definition get (self : t) (path : string) (params : option py) : M py :=
  request self "GET" path None params.

Definition post (self : t) (path : string) (json : option py) : M py :=
  request self "POST" path json None.

Definition patch (self : t) (path : string) (json : option py) : M py :=
  request self "PATCH" path json None.

Definition delete (self : t) (path : string) : M py :=
  request self "DELETE" path None None.

End HttpClient.

(** [a < b] on floats. *)
Definition float_lt (a b : Q) : bool := negb (Qle_bool b a).

Module ImagesResource.

Record t : Type := make { _client : HttpClient.t }.

Definition __init__ (client : HttpClient.t) : t := {| _client := client |}.

(** [ImagesResource.get_job(self, job_id)] *)
Definition get_job (self : t) (job_id : string) : M py :=
  response <- HttpClient.get (_client self) ("/api/batch/jobs/" ++ job_id) None ;;
  lift (py_get response "job" response).

(** [ImagesResource.estimate(self, prompt, num_images, width, height, steps)] *)
Definition estimate (self : t) (prompt : string) (num_images width height steps : Z) : M py :=
  HttpClient.post (_client self) "/api/batch/estimate"
    (Some (PyDict [("prompt", PyStr prompt);
                   ("numImages", PyInt num_images);
                   ("width", PyInt width);
                   ("height", PyInt height);
                   ("steps", PyInt steps)])).

(** [ImagesResource.generate(self, prompt, negative_prompt, num_images, width,
    height, steps, guidance_scale, seed)] *)
Definition generate (self : t) (prompt : string) (negative_prompt : option string)
    (num_images width height steps : Z) (guidance_scale : Q) (seed : option Z) : M py :=
  let payload := [("prompt", PyStr prompt);
                  ("numImages", PyInt num_images);
                  ("width", PyInt width);
                  ("height", PyInt height);
                  ("steps", PyInt steps);
                  ("guidanceScale", PyFloat guidance_scale)] in
  let payload :=
    if truthy_str negative_prompt
    then dict_set "negativePrompt" (py_of_str negative_prompt) payload
    else payload in
  let payload :=
    match seed with
    | Some _ => dict_set "seed" (py_of_int seed) payload
    | None => payload
    end in
  response <- HttpClient.post (_client self) "/api/batch/generate" (Some (PyDict payload)) ;;
  lift (py_get response "job" response).

(** [ImagesResource.list_jobs(self)] *)
Definition list_jobs (self : t) : M py :=
  response <- HttpClient.get (_client self) "/api/batch/jobs" None ;;
  lift (py_get response "jobs" (PyList [])).

Definition default_poll_interval : Q := 2.
Definition default_max_wait : Q := 300.

(** The [while] loop of [wait_for_job]; each unit of fuel pays for one
    evaluation of the loop condition. *)
Fixpoint wait_loop (fuel : nat) (self : t) (job_id : string)
    (poll_interval max_wait start_time : Q) : M py :=
  match fuel with
  | O => out_of_fuel
  | S fuel' =>
      now <- time_time ;;
      elapsed <- float_minus now start_time ;;
      if float_lt elapsed max_wait then
        job <- get_job self job_id ;;
        status <- lift (py_getitem job "status") ;;
        if py_in_strs status ["completed"; "failed"] then
          ret job
        else
          time_sleep poll_interval ;;
          wait_loop fuel' self job_id poll_interval max_wait start_time
      else
        timeout_text <- format_float max_wait ;;
        raise (PrimisTimeoutError
                 (PyStr ("Job " ++ job_id ++ " timed out after " ++ timeout_text ++ "s")))
  end.

(** [ImagesResource.wait_for_job(self, job_id, poll_interval, max_wait)] *)
Definition wait_for_job (fuel : nat) (self : t) (job_id : string)
    (poll_interval max_wait : Q) : M py :=
  start_time <- time_time ;;
  wait_loop fuel self job_id poll_interval max_wait start_time.

End ImagesResource.

Module FilesResource.
Record t : Type := make { _client : HttpClient.t }.
Definition __init__ (client : HttpClient.t) : t := {| _client := client |}.

(** [FilesResource.list(self)] *)
Definition list (self : t) : M py :=
  HttpClient.get (_client self) "/api/files" None.

(** [FilesResource.get_usage(self)] *)
Definition get_usage (self : t) : M py :=
  response <- HttpClient.get (_client self) "/api/files/usage" None ;;
  lift (py_get response "storage" (PyDict [])).

(** [FilesResource.delete(self, folder, filename)]: returns [None]. *)
Definition delete (self : t) (folder filename : string) : M unit :=
  HttpClient.delete (_client self) ("/api/files/" ++ folder ++ "/" ++ filename) ;;
  ret tt.
End FilesResource.

Module TextResource.
Record t : Type := make { _client : HttpClient.t }.
Definition __init__ (client : HttpClient.t) : t := {| _client := client |}.

(** [TextResource.estimate(self, prompt, max_tokens, model)] *)
Definition estimate (self : t) (prompt : string) (max_tokens : Z) (model : string) : M py :=
  HttpClient.post (_client self) "/api/inference/text/estimate"
    (Some (PyDict [("prompt", PyStr prompt);
                   ("maxTokens", PyInt max_tokens);
                   ("model", PyStr model)])).

(** [TextResource.generate(self, prompt, max_tokens, temperature, model)] *)
Definition generate (self : t) (prompt : string) (max_tokens : Z) (temperature : Q)
    (model : string) : M py :=
  HttpClient.post (_client self) "/api/inference/text/generate"
    (Some (PyDict [("prompt", PyStr prompt);
                   ("maxTokens", PyInt max_tokens);
                   ("temperature", PyFloat temperature);
                   ("model", PyStr model)])).
End TextResource.

Module InstancesResource.
Record t : Type := make { _client : HttpClient.t }.
Definition __init__ (client : HttpClient.t) : t := {| _client := client |}.

(** [InstancesResource.list(self)] *)
Definition list (self : t) : M py :=
  response <- HttpClient.get (_client self) "/api/instances" None ;;
  lift (py_get response "instances" (PyList [])).

(** [InstancesResource.get_gpu_types(self)] *)
Definition get_gpu_types (self : t) : M py :=
  response <- HttpClient.get (_client self) "/api/instances/gpus" None ;;
  lift (py_get response "gpus" (PyList [])).

(** [InstancesResource.launch(self, gpu_type, name, docker_image, volume_size)] *)
Definition launch (self : t) (gpu_type : string) (name docker_image : option string)
    (volume_size : option Z) : M py :=
  let payload := [("gpuType", PyStr gpu_type)] in
  let payload :=
    if truthy_str name
    then dict_set "name" (py_of_str name) payload
    else payload in
  let payload :=
    if truthy_str docker_image
    then dict_set "dockerImage" (py_of_str docker_image) payload
    else payload in
  let payload :=
    if truthy_int volume_size
    then dict_set "volumeSize" (py_of_int volume_size) payload
    else payload in
  response <- HttpClient.post (_client self) "/api/instances/launch" (Some (PyDict payload)) ;;
  lift (py_get response "instance" response).

(** [InstancesResource.stop(self, instance_id)]: returns [None]. *)
Definition stop (self : t) (instance_id : string) : M unit :=
  HttpClient.post (_client self) ("/api/instances/" ++ instance_id ++ "/stop") None ;;
  ret tt.

(** [InstancesResource.terminate(self, instance_id)]: returns [None]. *)
Definition terminate (self : t) (instance_id : string) : M unit :=
  HttpClient.delete (_client self) ("/api/instances/" ++ instance_id) ;;
  ret tt.
End InstancesResource.

Module ApiKeysResource.
Record t : Type := make { _client : HttpClient.t }.
Definition __init__ (client : HttpClient.t) : t := {| _client := client |}.

(** [ApiKeysResource.list(self)] *)
Definition list (self : t) : M py :=
  response <- HttpClient.get (_client self) "/api/api-keys" None ;;
  lift (py_get response "keys" (PyList [])).
End ApiKeysResource.

Module Primis.

Record t : Type := make {
  _client : HttpClient.t;
  files : FilesResource.t;
  images : ImagesResource.t;
  text : TextResource.t;
  instances : InstancesResource.t;
  api_keys : ApiKeysResource.t
}.

(** [Primis.__init__(self, api_key, base_url, timeout)] *)
Definition __init__ (api_key base_url : string) (timeout : Z) : M t :=
  client <- HttpClient.__init__ api_key base_url timeout ;;
  ret {| _client := client;
         files := FilesResource.__init__ client;
         images := ImagesResource.__init__ client;
         text := TextResource.__init__ client;
         instances := InstancesResource.__init__ client;
         api_keys := ApiKeysResource.__init__ client |}.

(** The [base_url] property. *)
Definition base_url (self : t) : string := HttpClient.base_url (_client self).

End Primis.

(* ===================================================================== *)
(** ** Running a computation                                             *)
(* ===================================================================== *)

Definition run {A} (c : M A) (env : Env) (w : World) : Outcome A * World := c env w.

(** The events a run added to the trace it started from. *)
Definition events_since (before after : World) : list Event :=
  skipn (List.length (trace before)) (trace after).

(** A server that answers every request the same way, a clock that stands
    still (so that every subtraction is the exact one, of zero from zero). *)
Definition canned (res : transport_result) : Env :=
  {| clock := fun _ => 0%Q; serve := fun _ _ => res; str_of_float := fun _ => "";
     float_sub := Qminus |}.

(** What one status fetch yields when its HTTP round trip ends with [res]. *)
Definition fetch_outcome (self : ImagesResource.t) (job_id : string)
    (res : transport_result) : Outcome py :=
  fst (ImagesResource.get_job self job_id (canned res) initial_world).

(** Requests read by position in a list of events. *)
Fixpoint requests_of (evs : list Event) : list (Request.t * transport_result) :=
  match evs with
  | [] => []
  | EvRequest req res :: rest => (req, res) :: requests_of rest
  | EvSleep _ :: rest => requests_of rest
  end.

(** A status fetch whose round trip ended with [res] reports [job] with
    status [status]. *)
Definition reports (self : ImagesResource.t) (job_id : string)
    (res : transport_result) (job status : py) : Prop :=
  fetch_outcome self job_id res = Returned job /\
  py_getitem job "status" = Returned status.

(** Objects used in the worked examples. *)
Definition sample_client : HttpClient.t :=
  {| HttpClient.api_key := "prmis_live_0001";
     HttpClient.base_url := "http://localhost:3001";
     HttpClient.timeout := 30;
     HttpClient.session_headers :=
       [("Authorization", "Bearer prmis_live_0001");
        ("Content-Type", "application/json")] |}.

Definition sample_images : ImagesResource.t := ImagesResource.__init__ sample_client.

Definition json_response (status : Z) (hs : list (string * string)) (body : py)
    : transport_result :=
  Responded {| Response.status_code := status;
               Response.headers := hs;
               Response.json := Some body |}.

(** The elapsed time the polling loop computes from two readings of the
    clock, given by their numbers. *)
Definition elapsed (env : Env) (first now : nat) : Q :=
  float_sub env (clock env now) (clock env first).

(** Rounding never takes an exact difference that reaches [bound] below
    [bound]: what rounding to nearest guarantees when [bound] is itself a
    float. *)
Definition subtraction_keeps (env : Env) (bound : Q) : Prop :=
  forall a b, (bound <= a - b)%Q -> (bound <= float_sub env a b)%Q.

(** The URL path and the request of one status fetch. *)
Definition job_path (job_id : string) : string := "/api/batch/jobs/" ++ job_id.

Definition fetch_request (self : ImagesResource.t) (job_id : string) : Request.t :=
  HttpClient.request_kwargs (ImagesResource._client self) "GET" (job_path job_id) None None.

(** The shape of the events one run of the polling loop adds, with its
    outcome: the loop stops at once (no fuel left, or the deadline reached,
    raising [deadline]), or it fetches; a fetch that raises, whose job has no
    readable status, or whose status is terminal ends the run; otherwise the
    loop sleeps (a negative interval raises) and starts over. *)
Inductive polls (self : ImagesResource.t) (job_id : string) (poll_interval : Q)
    (deadline : exception) : list Event -> Outcome py -> Prop :=
| polls_out_of_fuel :
    polls self job_id poll_interval deadline [] OutOfFuel
| polls_deadline :
    polls self job_id poll_interval deadline [] (Raised deadline)
| polls_fetch_raised req res e :
    fetch_outcome self job_id res = Raised e ->
    polls self job_id poll_interval deadline [EvRequest req res] (Raised e)
| polls_status_raised req res job e :
    fetch_outcome self job_id res = Returned job ->
    py_getitem job "status" = Raised e ->
    polls self job_id poll_interval deadline [EvRequest req res] (Raised e)
| polls_terminal req res job status :
    reports self job_id res job status ->
    py_in_strs status ["completed"; "failed"] = true ->
    polls self job_id poll_interval deadline [EvRequest req res] (Returned job)
| polls_sleep_raised req res job status e :
    reports self job_id res job status ->
    py_in_strs status ["completed"; "failed"] = false ->
    Qle_bool 0 poll_interval = false ->
    e = builtin_exception cls_ValueError "sleep length must be non-negative" ->
    polls self job_id poll_interval deadline [EvRequest req res] (Raised e)
| polls_again req res job status rest out :
    reports self job_id res job status ->
    py_in_strs status ["completed"; "failed"] = false ->
    Qle_bool 0 poll_interval = true ->
    polls self job_id poll_interval deadline rest out ->
    polls self job_id poll_interval deadline
      (EvRequest req res :: EvSleep poll_interval :: rest) out.

(** The error [wait_for_job] raises at the deadline. *)
Definition deadline_error (env : Env) (job_id : string) (max_wait : Q) : exception :=
  PrimisTimeoutError
    (PyStr ("Job " ++ job_id ++ " timed out after " ++ str_of_float env max_wait ++ "s")).


(** Responses used in the worked examples. *)
Definition unauthorized_html : transport_result :=
  Responded {| Response.status_code := 401;
               Response.headers := [("Content-Type", "text/html")];
               Response.json := None |}.

Definition multiple_choices : transport_result :=
  json_response 300 [] (PyDict [("error", PyStr "Multiple Choices")]).

Definition rate_limited_until_date : transport_result :=
  json_response 429 [("Retry-After", "Wed, 21 Oct 2015 07:28:00 GMT")]
    (PyDict [("error", PyStr "Too many requests")]).

Definition server_error_list_body : transport_result :=
  json_response 500 [] (PyList [PyStr "Internal Server Error"]).

(** A job record as the service wraps it, with the given status. *)
Definition job_record (status : string) : py :=
  PyDict [("id", PyStr "job_42"); ("status", PyStr status); ("prompt", PyStr "A cat")].

Definition job_response (status : string) : transport_result :=
  json_response 200 [] (PyDict [("job", job_record status)]).

(** A clock that starts at 100 s and is next read after each 2 s sleep, a
    printer that is right on integral floats, and the exact subtraction,
    which is the float one on the small integers this clock shows. *)
Definition sample_clock (n : nat) : Q := inject_Z (100 + 2 * Z.of_nat (n - 1)).

Definition sample_printer (x : Q) : string :=
  str_of_int (Qnum x / Zpos (Qden x)) ++ ".0".

Definition sample_env (answers : nat -> transport_result) : Env :=
  {| clock := sample_clock; serve := fun n _ => answers n; str_of_float := sample_printer;
     float_sub := Qminus |}.

(** Pending, then running, then completed. *)
Definition three_polls (n : nat) : transport_result :=
  match n with
  | O => job_response "pending"
  | S O => job_response "running"
  | _ => job_response "completed"
  end.

(** Running once, then the service is rate limiting. *)
Definition rate_limited_on_second (n : nat) : transport_result :=
  match n with
  | O => job_response "running"
  | _ => json_response 429 [("Retry-After", "7")] (PyDict [("error", PyStr "Slow down")])
  end.

(** More responses for the worked examples. *)
Definition no_content : transport_result :=
  Responded {| Response.status_code := 204; Response.headers := []; Response.json := None |}.

Definition sample_session_client (api_key base_url : string) (timeout : Z) : HttpClient.t :=
  {| HttpClient.api_key := api_key;
     HttpClient.base_url := rstrip_slash base_url;
     HttpClient.timeout := timeout;
     HttpClient.session_headers :=
       [("Authorization", "Bearer " ++ api_key); ("Content-Type", "application/json")] |}.

Definition sample_session (api_key base_url : string) (timeout : Z) : Primis.t :=
  let client := sample_session_client api_key base_url timeout in
  {| Primis._client := client;
     Primis.files := FilesResource.__init__ client;
     Primis.images := ImagesResource.__init__ client;
     Primis.text := TextResource.__init__ client;
     Primis.instances := InstancesResource.__init__ client;
     Primis.api_keys := ApiKeysResource.__init__ client |}.

(** A computation whose only effect is one round trip with request [req]. *)
Definition round_trip {A : Type} (c : M A) (req : Request.t) : Prop :=
  forall env w, snd (run c env w) = after_request w req (serve env (requests_sent w) req).

(** [x.get(key, default)] applied to what a call returned; an exception
    passes through. *)
Definition unwrap (key : string) (default : option py) (o : Outcome py) : Outcome py :=
  match o with
  | Returned r =>
      py_get r key match default with
                   | Some d => d
                   | None => r
                   end
  | other => other
  end.

(** The events of a polling run that fetched [answers] and slept after each
    of them. *)
Fixpoint poll_events (self : ImagesResource.t) (job_id : string) (poll_interval : Q)
    (answers : list transport_result) : list Event :=
  match answers with
  | [] => []
  | res :: rest =>
      EvRequest (fetch_request self job_id) res
        :: EvSleep poll_interval
        :: poll_events self job_id poll_interval rest
  end.

Definition jobs_without_status : transport_result :=
  json_response 200 [] (PyDict [("job", PyDict [("id", PyStr "job_42")])]).

(** A run of decimal digits, for the length limit of [int()]. *)
Fixpoint ones (n : nat) : string :=
  match n with
  | O => EmptyString
  | S n' => String "1" (ones n')
  end.

(* ===================================================================== *)
(** ** Sanity checks of the primitives                                   *)
(* ===================================================================== *)

Example int_of_str_plain : int_of_str " 42 " = Some 42.
Proof. reflexivity. Qed.

Example int_of_str_underscore : int_of_str "+1_000" = Some 1000.
Proof. reflexivity. Qed.

Example int_of_str_date : int_of_str "Wed, 21 Oct 2015 07:28:00 GMT" = None.
Proof. reflexivity. Qed.

Example int_of_str_decimal : int_of_str "1.5" = None.
Proof. reflexivity. Qed.

Example int_of_str_unit_separator :
  int_of_str (String.append "42" (String (ascii_of_nat 31) EmptyString)) = None.
Proof. reflexivity. Qed.

Example int_of_str_no_break_space :
  int_of_str (String.append "42" (String (ascii_of_nat 160) EmptyString)) = Some 42.
Proof. reflexivity. Qed.

Example int_of_str_at_digit_limit :
  match int_of_str (ones 4300) with
  | Some _ => True
  | None => False
  end.
Proof. vm_compute. exact I. Qed.

Example int_of_str_over_digit_limit : int_of_str (ones 4301) = None.
Proof. vm_compute. reflexivity. Qed.

Example rstrip_slash_many : rstrip_slash "http://x//" = "http://x".
Proof. reflexivity. Qed.

Example str_of_int_status : str_of_int 404 = "404".
Proof. reflexivity. Qed.

Example auth_is_api_error : issubclass cls_PrimisAuthError cls_PrimisAPIError = true.
Proof. reflexivity. Qed.

Example value_error_untyped :
  is_typed (builtin_exception cls_ValueError "x") = false.
Proof. reflexivity. Qed.

Example ok_below_400 : Response.ok {| Response.status_code := 302;
                                      Response.headers := [];
                                      Response.json := None |} = true.
Proof. reflexivity. Qed.

(* ===================================================================== *)
(** ** The transport/error layer: [HttpClient.request]                   *)
(* ===================================================================== *)

Section Transport.

Variables (env : Env) (w : World).
Variables (self : HttpClient.t) (method path : string) (json params : option py).

Local Abbreviation req := (HttpClient.request_kwargs self method path json params).
Local Abbreviation answer := (serve env (requests_sent w) req).
Local Abbreviation result := (run (HttpClient.request self method path json params) env w).

(** X1: one call is one round trip, whatever its outcome. *)
Lemma request_one_round_trip :
  snd result = after_request w req answer.
Proof.
    unfold run, HttpClient.request, bind, session_request, lift, raise, ret.
  repeat match goal with
         | |- context [match ?x with _ => _ end] => destruct x; simpl
         end; reflexivity.
Qed.

Lemma request_timeout :
  answer = Raises_Timeout ->
  fst result = Raised (PrimisTimeoutError (PyStr ("Request to " ++ path ++ " timed out"))).
Proof.
  intros H.
  unfold run, HttpClient.request, bind, session_request. simpl.
  rewrite H. reflexivity.
Qed.

Lemma request_connection_error (text : string) :
  answer = Raises_ConnectionError text ->
  fst result = Raised (PrimisError (PyStr ("Connection error: " ++ text))
                         (PyStr "CONNECTION_ERROR")).
Proof.
  intros H.
  unfold run, HttpClient.request, bind, session_request. simpl.
  rewrite H. reflexivity.
Qed.

Lemma request_other_exception (name text : string) :
  answer = Raises_Other name text ->
  fst result = Raised (builtin_exception (cls_requests name) text).
Proof.
  intros H.
  unfold run, HttpClient.request, bind, session_request. simpl.
  rewrite H. reflexivity.
Qed.

Variable response : Response.t.
Hypothesis responded : answer = Responded response.

(** X2: a body that is not JSON is reported as the parse error whatever the
    status: the body is parsed before the status is looked at. *)
Lemma request_parse_error :
  Response.json response = None ->
  fst result = Raised (PrimisError (PyStr ("Invalid JSON response from " ++ path))
                         (PyStr "PARSE_ERROR")).
Proof.
  intros H.
  unfold run, HttpClient.request, bind, session_request. simpl.
  rewrite responded, H. reflexivity.
Qed.

Lemma request_success (data : py) :
  Response.json response = Some data ->
  Response.ok response = true ->
  fst result = Returned data.
Proof.
  intros H Hok.
  unfold run, HttpClient.request, bind, session_request. simpl.
  rewrite responded, H, Hok. reflexivity.
Qed.

(** The error branch, for a body that is a JSON object. *)
Lemma request_error_branch (items : list (string * py)) :
  Response.json response = Some (PyDict items) ->
  Response.ok response = false ->
  let status := Response.status_code response in
  let error_msg := match lookup "error" items with
                   | Some v => v
                   | None => PyStr ("HTTP " ++ str_of_int status)
                   end in
  let error_code := match lookup "code" items with
                    | Some v => v
                    | None => PyStr "HTTP_ERROR"
                    end in
  fst result =
    if status =? 401 then Raised (PrimisAuthError error_msg)
    else if status =? 429 then
      match py_int (headers_get_or (Response.headers response) "Retry-After" (PyInt 60)) with
      | Returned n => Raised (PrimisRateLimitError error_msg n)
      | Raised e => Raised e
      | OutOfFuel => OutOfFuel
      end
    else Raised (PrimisAPIError error_msg error_code status).
Proof.
  intros H Hok.
  unfold run, HttpClient.request, bind, session_request. simpl.
  rewrite responded, H, Hok. unfold lift. simpl.
  destruct (lookup "error" items); destruct (lookup "code" items); simpl;
    destruct (Response.status_code response =? 401);
    destruct (Response.status_code response =? 429); try reflexivity;
    destruct (py_int _); reflexivity.
Qed.

End Transport.

(** *** Status 429 *)

Lemma request_429_retry_after_header
    (env : Env) (w : World) (self : HttpClient.t) (method path : string)
    (json params : option py) (response : Response.t) (items : list (string * py))
    (value : string) (seconds : Z) :
  serve env (requests_sent w) (HttpClient.request_kwargs self method path json params)
    = Responded response ->
  Response.status_code response = 429 ->
  Response.json response = Some (PyDict items) ->
  Response.headers_get "Retry-After" (Response.headers response) = Some value ->
  int_of_str value = Some seconds ->
  exists msg,
    fst (run (HttpClient.request self method path json params) env w)
      = Raised (PrimisRateLimitError msg seconds).
Proof.
  intros Hres Hst Hjson Hhdr Hint.
  rewrite (request_error_branch env w self method path json params response Hres items Hjson)
    by (unfold Response.ok; rewrite Hst; reflexivity).
  rewrite Hst. simpl. unfold headers_get_or. rewrite Hhdr. simpl. rewrite Hint.
  eexists. reflexivity.
Qed.

Lemma request_429_retry_after_absent
    (env : Env) (w : World) (self : HttpClient.t) (method path : string)
    (json params : option py) (response : Response.t) (items : list (string * py)) :
  serve env (requests_sent w) (HttpClient.request_kwargs self method path json params)
    = Responded response ->
  Response.status_code response = 429 ->
  Response.json response = Some (PyDict items) ->
  Response.headers_get "Retry-After" (Response.headers response) = None ->
  exists msg,
    fst (run (HttpClient.request self method path json params) env w)
      = Raised (PrimisRateLimitError msg 60).
Proof.
  intros Hres Hst Hjson Hhdr.
  rewrite (request_error_branch env w self method path json params response Hres items Hjson)
    by (unfold Response.ok; rewrite Hst; reflexivity).
  rewrite Hst. simpl. unfold headers_get_or. rewrite Hhdr. simpl.
  eexists. reflexivity.
Qed.

(** C3, where the code departs from the claim: a 429 response whose
    [Retry-After] header holds an HTTP date (not an integer) makes [request]
    raise the built-in [ValueError] of [int()], not a [PrimisRateLimitError]
    with [retry_after = 60]. *)
Theorem request_429_unparseable_retry_after_raises_ValueError :
  fst (run (HttpClient.request sample_client "GET" "/api/files" None None)
         (canned rate_limited_until_date) initial_world)
    = Raised (builtin_exception cls_ValueError
                "invalid literal for int() with base 10: 'Wed, 21 Oct 2015 07:28:00 GMT'")
  /\ isinstance (builtin_exception cls_ValueError
                   "invalid literal for int() with base 10: 'Wed, 21 Oct 2015 07:28:00 GMT'")
       cls_PrimisRateLimitError = false.
Proof. split; reflexivity. Qed.

(** *** Status 401 *)

(** C7 (amended): for every response with status 401 whose body is a JSON
    object, whatever that object holds, [request] raises [PrimisAuthError]
    with status 401 and code [AUTH_ERROR]; its message is the body's [error]
    field when present and ["HTTP 401"] otherwise. *)
Theorem request_401_raises_auth_error
    (env : Env) (w : World) (self : HttpClient.t) (method path : string)
    (json params : option py) (response : Response.t) (items : list (string * py)) :
  serve env (requests_sent w) (HttpClient.request_kwargs self method path json params)
    = Responded response ->
  Response.status_code response = 401 ->
  Response.json response = Some (PyDict items) ->
  fst (run (HttpClient.request self method path json params) env w)
    = Raised {| exc_class := cls_PrimisAuthError;
                message := match lookup "error" items with
                           | Some v => v
                           | None => PyStr "HTTP 401"
                           end;
                code := Some (PyStr "AUTH_ERROR");
                status_code := Some 401;
                retry_after := None |}.
Proof.
  intros Hres Hst Hjson.
  rewrite (request_error_branch env w self method path json params response Hres items Hjson)
    by (unfold Response.ok; rewrite Hst; reflexivity).
  rewrite Hst. simpl. destruct (lookup "error" items); reflexivity.
Qed.

Lemma request_401_raises_auth_error_witness :
  fst (run (HttpClient.request sample_client "GET" "/api/files" None None)
         (canned (json_response 401 [] (PyDict [("error", PyStr "Invalid API key");
                                                ("code", PyStr "SOMETHING_ELSE")])))
         initial_world)
    = Raised {| exc_class := cls_PrimisAuthError;
                message := PyStr "Invalid API key";
                code := Some (PyStr "AUTH_ERROR");
                status_code := Some 401;
                retry_after := None |}.
Proof.
  apply (request_401_raises_auth_error
           (canned (json_response 401 [] (PyDict [("error", PyStr "Invalid API key");
                                                  ("code", PyStr "SOMETHING_ELSE")])))
           initial_world sample_client "GET" "/api/files" None None
           {| Response.status_code := 401; Response.headers := [];
              Response.json := Some (PyDict [("error", PyStr "Invalid API key");
                                             ("code", PyStr "SOMETHING_ELSE")]) |}
           [("error", PyStr "Invalid API key"); ("code", PyStr "SOMETHING_ELSE")]);
    reflexivity.
Defined.

(** C7 as stated fails: a 401 response whose body is not JSON (an HTML
    error page) is reported as the parse error, not as [PrimisAuthError]. *)
Lemma request_401_html_body_is_parse_error :
  fst (run (HttpClient.request sample_client "GET" "/api/files" None None)
         (canned unauthorized_html) initial_world)
    = Raised (PrimisError (PyStr "Invalid JSON response from /api/files")
                (PyStr "PARSE_ERROR"))
  /\ isinstance (PrimisError (PyStr "Invalid JSON response from /api/files")
                   (PyStr "PARSE_ERROR")) cls_PrimisAuthError = false
  /\ status_code (PrimisError (PyStr "Invalid JSON response from /api/files")
                    (PyStr "PARSE_ERROR")) <> Some 401.
Proof. repeat split; try reflexivity. discriminate. Qed.

(** *** Any other error status *)

(** C5 (amended): for every response whose status lies in 400..599, is
    neither 401 nor 429, and whose body is a JSON object, [request] raises
    [PrimisAPIError] carrying the response status, the body's [code] field
    (["HTTP_ERROR"] when absent) and the body's [error] field
    (["HTTP <status>"] when absent). *)
Theorem request_other_status_raises_api_error
    (env : Env) (w : World) (self : HttpClient.t) (method path : string)
    (json params : option py) (response : Response.t) (items : list (string * py)) :
  serve env (requests_sent w) (HttpClient.request_kwargs self method path json params)
    = Responded response ->
  Response.json response = Some (PyDict items) ->
  400 <= Response.status_code response < 600 ->
  Response.status_code response <> 401 ->
  Response.status_code response <> 429 ->
  fst (run (HttpClient.request self method path json params) env w)
    = Raised {| exc_class := cls_PrimisAPIError;
                message := match lookup "error" items with
                           | Some v => v
                           | None => PyStr ("HTTP " ++ str_of_int (Response.status_code response))
                           end;
                code := Some match lookup "code" items with
                             | Some v => v
                             | None => PyStr "HTTP_ERROR"
                             end;
                status_code := Some (Response.status_code response);
                retry_after := None |}.
Proof.
  intros Hres Hjson Hrange H401 H429.
  assert (Hok : Response.ok response = false).
  { unfold Response.ok.
    destruct (Z.leb_spec 400 (Response.status_code response));
      destruct (Z.ltb_spec (Response.status_code response) 600); simpl; try reflexivity; lia. }
  rewrite (request_error_branch env w self method path json params response Hres items Hjson Hok).
  simpl.
  destruct (Z.eqb_spec (Response.status_code response) 401); [contradiction|].
  destruct (Z.eqb_spec (Response.status_code response) 429); [contradiction|].
  reflexivity.
Qed.

Lemma request_other_status_raises_api_error_witness :
  fst (run (HttpClient.request sample_client "DELETE" "/api/files/models/a.bin" None None)
         (canned (json_response 404 [] (PyDict [("code", PyStr "NOT_FOUND")])))
         initial_world)
    = Raised {| exc_class := cls_PrimisAPIError;
                message := PyStr "HTTP 404";
                code := Some (PyStr "NOT_FOUND");
                status_code := Some 404;
                retry_after := None |}.
Proof.
  apply (request_other_status_raises_api_error
           (canned (json_response 404 [] (PyDict [("code", PyStr "NOT_FOUND")])))
           initial_world sample_client "DELETE" "/api/files/models/a.bin" None None
           {| Response.status_code := 404; Response.headers := [];
              Response.json := Some (PyDict [("code", PyStr "NOT_FOUND")]) |}
           [("code", PyStr "NOT_FOUND")]);
    [reflexivity | reflexivity | simpl; lia | discriminate | discriminate].
Defined.

(** C5 as stated fails: status 300 is not 2xx, 401 or 429 and its body is
    valid JSON, yet [response.ok] holds below 400 and [request] returns the
    body instead of raising. *)
Lemma request_status_300_returns_body :
  fst (run (HttpClient.request sample_client "GET" "/api/files" None None)
         (canned multiple_choices) initial_world)
    = Returned (PyDict [("error", PyStr "Multiple Choices")]).
Proof. reflexivity. Qed.

(** *** Which failures are typed *)


(** C6, where the code departs from the claim: an error status whose JSON
    body is not an object makes [data.get] raise [AttributeError], and a 429
    whose [Retry-After] is not an integer makes [int()] raise [ValueError];
    neither is an instance of [PrimisError]. *)
Theorem request_untyped_exceptions_escape :
  (fst (run (HttpClient.request sample_client "GET" "/api/files" None None)
          (canned server_error_list_body) initial_world)
     = Raised (builtin_exception cls_AttributeError "'list' object has no attribute 'get'")
   /\ is_typed (builtin_exception cls_AttributeError
                  "'list' object has no attribute 'get'") = false)
  /\
  (exists e,
      fst (run (HttpClient.request sample_client "GET" "/api/files" None None)
             (canned rate_limited_until_date) initial_world) = Raised e
      /\ exc_class e = cls_ValueError
      /\ is_typed e = false).
Proof.
  split.
  - split; reflexivity.
  - eexists. repeat split.
Qed.

(* ===================================================================== *)
(** ** Session construction                                              *)
(* ===================================================================== *)

Lemma endswith_slash_cons (c : ascii) (s : string) :
  s <> EmptyString -> endswith (String c s) "/" = endswith s "/".
Proof.
  destruct s as [|c' s']; [congruence|]. intros _.
  unfold endswith. simpl String.length.
  replace (S (S (String.length s')) - 1)%nat with (S (String.length s')) by lia.
  replace (S (String.length s') - 1)%nat with (String.length s') by lia.
  reflexivity.
Qed.

Lemma rstrip_slash_fixed (s : string) :
  endswith s "/" = false -> rstrip_slash s = s.
Proof.
  induction s as [|c s IH]; [reflexivity|].
  destruct s as [|c' s'].
  - unfold endswith. simpl.
    destruct (Ascii.eqb_spec c "/") as [->|]; [discriminate|reflexivity].
  - rewrite endswith_slash_cons by discriminate. intros H.
    change (rstrip_slash (String c (String c' s')))
      with (match rstrip_slash (String c' s') with
            | EmptyString => if Ascii.eqb c "/" then EmptyString else String c EmptyString
            | kept => String c kept
            end).
    rewrite (IH H). reflexivity.
Qed.

(** Construction performs no effect at all. *)
Lemma construction_leaves_world (api_key base_url : string) (timeout : Z)
    (env : Env) (w : World) :
  snd (run (Primis.__init__ api_key base_url timeout) env w) = w.
Proof.
  unfold run, Primis.__init__, HttpClient.__init__, bind.
  destruct (startswith api_key "prmis_"); reflexivity.
Qed.

(** C4 (amended): for every base endpoint that does not end in ['/'] and
    every timeout passed at the construction of a session (with a well-formed
    credential), the session's base endpoint and timeout read back are exactly
    the values passed in. *)
Theorem construction_round_trip (api_key base_url : string) (timeout : Z)
    (env : Env) (w : World) :
  startswith api_key "prmis_" = true ->
  endswith base_url "/" = false ->
  exists session,
    run (Primis.__init__ api_key base_url timeout) env w = (Returned session, w)
    /\ Primis.base_url session = base_url
    /\ HttpClient.timeout (Primis._client session) = timeout.
Proof.
  intros Hkey Hurl.
  unfold run, Primis.__init__, HttpClient.__init__, bind. rewrite Hkey. simpl.
  eexists. split; [reflexivity|]. split; [|reflexivity].
  unfold Primis.base_url. simpl. apply rstrip_slash_fixed, Hurl.
Qed.

Lemma construction_round_trip_witness :
  exists session,
    run (Primis.__init__ "prmis_live_0001" "https://api.primis.example/v1" 45)
      (canned Raises_Timeout) initial_world = (Returned session, initial_world)
    /\ Primis.base_url session = "https://api.primis.example/v1"
    /\ HttpClient.timeout (Primis._client session) = 45.
Proof.
  apply (construction_round_trip "prmis_live_0001" "https://api.primis.example/v1" 45
           (canned Raises_Timeout) initial_world); reflexivity.
Defined.

(** What is read back in general: the base endpoint without its trailing
    slashes. *)
Lemma construction_strips_trailing_slashes (api_key base_url : string) (timeout : Z)
    (env : Env) (w : World) (session : Primis.t) :
  fst (run (Primis.__init__ api_key base_url timeout) env w) = Returned session ->
  Primis.base_url session = rstrip_slash base_url.
Proof.
  unfold run, Primis.__init__, HttpClient.__init__, bind.
  destruct (startswith api_key "prmis_"); simpl; [|discriminate].
  intros [= <-]. reflexivity.
Qed.

(** C4 as stated fails: a base endpoint passed with a trailing slash is read
    back without it. *)
Lemma construction_alters_trailing_slash :
  exists session,
    fst (run (Primis.__init__ "prmis_live_0001" "http://localhost:3001/" 30)
           (canned Raises_Timeout) initial_world) = Returned session
    /\ Primis.base_url session = "http://localhost:3001"
    /\ Primis.base_url session <> "http://localhost:3001/".
Proof.
  eexists. split; [reflexivity|]. split; [reflexivity|]. discriminate.
Qed.

(** C9: for every credential that does not begin with [prmis_], construction
    raises the base [PrimisError] and leaves the world as it was: no request
    has been sent. *)
Theorem construction_rejects_bad_credential (api_key base_url : string) (timeout : Z)
    (env : Env) (w : World) :
  startswith api_key "prmis_" = false ->
  run (Primis.__init__ api_key base_url timeout) env w
    = (Raised {| exc_class := cls_PrimisError;
                 message := PyStr "Invalid API key format. Keys must start with 'prmis_'";
                 code := Some (PyStr "UNKNOWN");
                 status_code := None;
                 retry_after := None |},
       w).
Proof.
  intros Hkey.
  unfold run, Primis.__init__, HttpClient.__init__, bind. rewrite Hkey. reflexivity.
Qed.

Lemma construction_rejects_bad_credential_witness :
  run (Primis.__init__ "sk_live_0001" "http://localhost:3001" 30)
    (canned (job_response "completed")) initial_world
    = (Raised {| exc_class := cls_PrimisError;
                 message := PyStr "Invalid API key format. Keys must start with 'prmis_'";
                 code := Some (PyStr "UNKNOWN");
                 status_code := None;
                 retry_after := None |},
       initial_world).
Proof.
  apply (construction_rejects_bad_credential "sk_live_0001" "http://localhost:3001" 30
           (canned (job_response "completed")) initial_world).
  reflexivity.
Defined.

(* ===================================================================== *)
(** ** The polling orchestrator: [ImagesResource.wait_for_job]           *)
(* ===================================================================== *)

Lemma float_lt_true (a b : Q) : float_lt a b = true <-> (a < b)%Q.
Proof.
  unfold float_lt. rewrite negb_true_iff.
  destruct (Qle_bool b a) eqn:H.
  - apply Qle_bool_iff in H. split; [discriminate|]. intros Hlt.
    exfalso. apply (Qlt_not_le _ _ Hlt H).
  - split; [|reflexivity]. intros _. apply Qnot_le_lt. intros Hle.
    apply Qle_bool_iff in Hle. congruence.
Qed.

Lemma float_lt_false (a b : Q) : float_lt a b = false <-> (b <= a)%Q.
Proof.
  unfold float_lt. rewrite negb_false_iff. apply Qle_bool_iff.
Qed.

Lemma py_get_terminates (x : py) (key : string) (default : py) :
  py_get x key default <> OutOfFuel.
Proof. destruct x; simpl; try discriminate. destruct (lookup key items); discriminate. Qed.

Lemma py_getitem_terminates (x : py) (key : string) :
  py_getitem x key <> OutOfFuel.
Proof. destruct x; simpl; try discriminate. destruct (lookup key items); discriminate. Qed.

(** One status fetch is one round trip; its outcome depends on the world
    only through the way that round trip ends. *)
Lemma get_job_run (self : ImagesResource.t) (job_id : string) (env : Env) (w : World) :
  run (ImagesResource.get_job self job_id) env w =
    (fetch_outcome self job_id (serve env (requests_sent w) (fetch_request self job_id)),
     after_request w (fetch_request self job_id)
       (serve env (requests_sent w) (fetch_request self job_id))).
Proof.
  unfold fetch_outcome, fetch_request, job_path, run, ImagesResource.get_job,
    HttpClient.get, HttpClient.request, bind, session_request, lift, raise, ret.
  simpl.
  destruct (serve env (requests_sent w) _) as [response| |text|name text]; simpl;
    try reflexivity.
  destruct (Response.json response) as [data|]; simpl; try reflexivity.
  destruct (Response.ok response); simpl.
  - destruct (py_get data "job" data); reflexivity.
  - destruct (py_get data "error" _); simpl; try reflexivity.
    destruct (py_get data "code" _); simpl; try reflexivity.
    destruct (Response.status_code response =? 401); simpl; try reflexivity.
    destruct (Response.status_code response =? 429); simpl; try reflexivity.
    destruct (py_int _); reflexivity.
Qed.

Lemma fetch_outcome_terminates (self : ImagesResource.t) (job_id : string)
    (res : transport_result) :
  fetch_outcome self job_id res <> OutOfFuel.
Proof.
  unfold fetch_outcome, ImagesResource.get_job,
    HttpClient.get, HttpClient.request, bind, session_request, lift, raise, ret.
  simpl.
  destruct res as [response| |text|name text]; simpl; try discriminate.
  destruct (Response.json response) as [data|]; simpl; try discriminate.
  destruct (Response.ok response); simpl.
  - pose proof (py_get_terminates data "job" data).
    destruct (py_get data "job" data); simpl; congruence.
  - destruct data; simpl; try discriminate.
    destruct (lookup "error" items); destruct (lookup "code" items); simpl;
      destruct (Response.status_code response =? 401); simpl; try discriminate;
      destruct (Response.status_code response =? 429); simpl; try discriminate;
      destruct (headers_get_or _ _ _); simpl; try discriminate;
      destruct (int_of_str _); simpl; try discriminate;
      destruct (parse_int_literal _); discriminate.
Qed.

(** One turn of the [while] loop. *)
Lemma wait_loop_step (fuel : nat) (self : ImagesResource.t) (job_id : string)
    (poll_interval max_wait start_time : Q) (env : Env) (w : World) :
  run (ImagesResource.wait_loop (S fuel) self job_id poll_interval max_wait start_time) env w =
    if float_lt (float_sub env (clock env (clock_reads w)) start_time) max_wait then
      let res := serve env (requests_sent w) (fetch_request self job_id) in
      let fetched := after_request (after_clock_read w) (fetch_request self job_id) res in
      match fetch_outcome self job_id res with
      | Returned job =>
          match py_getitem job "status" with
          | Returned status =>
              if py_in_strs status ["completed"; "failed"] then (Returned job, fetched)
              else if Qle_bool 0 poll_interval then
                run (ImagesResource.wait_loop fuel self job_id poll_interval max_wait
                       start_time) env (after_sleep fetched poll_interval)
              else
                (Raised (builtin_exception cls_ValueError
                           "sleep length must be non-negative"), fetched)
          | Raised e => (Raised e, fetched)
          | OutOfFuel => (OutOfFuel, fetched)
          end
      | Raised e => (Raised e, fetched)
      | OutOfFuel => (OutOfFuel, fetched)
      end
    else (Raised (deadline_error env job_id max_wait), after_clock_read w).
Proof.
  unfold run. cbn [ImagesResource.wait_loop].
  unfold bind at 1. unfold time_time at 1.
  unfold bind at 1. unfold float_minus at 1.
  destruct (float_lt (float_sub env (clock env (clock_reads w)) start_time) max_wait);
    [|reflexivity].
  unfold bind at 1.
  pose proof (get_job_run self job_id env (after_clock_read w)) as Hfetch.
  unfold run in Hfetch. rewrite Hfetch. simpl requests_sent.
  destruct (fetch_outcome self job_id _) as [job| |]; try reflexivity.
  unfold bind at 1, lift at 1.
  destruct (py_getitem job "status") as [status| |]; try reflexivity.
  destruct (py_in_strs status ["completed"; "failed"]); [reflexivity|].
  unfold bind at 1, time_sleep at 1.
  destruct (Qle_bool 0 poll_interval); reflexivity.
Qed.

(** The two turns that matter most, read off [wait_loop_step]: a terminal
    status ends the loop with the job; a non-terminal one costs a sleep. *)
Lemma wait_loop_terminal (fuel : nat) (self : ImagesResource.t) (job_id : string)
    (poll_interval max_wait start_time : Q) (env : Env) (w : World) (job status : py) :
  (float_sub env (clock env (clock_reads w)) start_time < max_wait)%Q ->
  reports self job_id (serve env (requests_sent w) (fetch_request self job_id)) job status ->
  py_in_strs status ["completed"; "failed"] = true ->
  run (ImagesResource.wait_loop (S fuel) self job_id poll_interval max_wait start_time) env w
    = (Returned job,
       after_request (after_clock_read w) (fetch_request self job_id)
         (serve env (requests_sent w) (fetch_request self job_id))).
Proof.
  intros Hcheck [Hjob Hstatus] Hterminal. apply float_lt_true in Hcheck.
  rewrite wait_loop_step, Hcheck. cbv zeta. rewrite Hjob, Hstatus, Hterminal. reflexivity.
Qed.


Lemma wait_loop_deadline (fuel : nat) (self : ImagesResource.t) (job_id : string)
    (poll_interval max_wait start_time : Q) (env : Env) (w : World) :
  (max_wait <= float_sub env (clock env (clock_reads w)) start_time)%Q ->
  run (ImagesResource.wait_loop (S fuel) self job_id poll_interval max_wait start_time) env w
    = (Raised (deadline_error env job_id max_wait), after_clock_read w).
Proof.
  intros Hcheck. apply float_lt_false in Hcheck.
  rewrite wait_loop_step, Hcheck. reflexivity.
Qed.

Lemma wait_for_job_run (fuel : nat) (self : ImagesResource.t) (job_id : string)
    (poll_interval max_wait : Q) (env : Env) (w : World) :
  run (ImagesResource.wait_for_job fuel self job_id poll_interval max_wait) env w =
    run (ImagesResource.wait_loop fuel self job_id poll_interval max_wait
           (clock env (clock_reads w))) env (after_clock_read w).
Proof. reflexivity. Qed.

Lemma events_since_app (w w' : World) (evs : list Event) :
  trace w' = (trace w ++ evs)%list -> events_since w w' = evs.
Proof.
  intros H. unfold events_since. rewrite H. clear H.
  induction (trace w) as [|ev rest IH]; [reflexivity|exact IH].
Qed.

(** Every run of the loop has the shape [polls] describes. *)
Lemma wait_loop_polls (self : ImagesResource.t) (job_id : string)
    (poll_interval max_wait start_time : Q) (env : Env) (fuel : nat) :
  forall w,
  exists evs,
    trace (snd (run (ImagesResource.wait_loop fuel self job_id poll_interval max_wait
                       start_time) env w)) = (trace w ++ evs)%list
    /\ polls self job_id poll_interval (deadline_error env job_id max_wait) evs
         (fst (run (ImagesResource.wait_loop fuel self job_id poll_interval max_wait
                      start_time) env w)).
Proof.
  induction fuel as [|fuel IH]; intros w.
  - exists []. split; [symmetry; apply app_nil_r|constructor].
  - rewrite wait_loop_step.
    destruct (float_lt _ max_wait).
    2:{ exists []. split; [symmetry; apply app_nil_r|constructor]. }
    cbv zeta.
    set (res := serve env (requests_sent w) (fetch_request self job_id)).
    destruct (fetch_outcome self job_id res) as [job|e|] eqn:Hfetch.
    + destruct (py_getitem job "status") as [status|e|] eqn:Hstatus.
      * destruct (py_in_strs status ["completed"; "failed"]) eqn:Hterminal.
        { exists [EvRequest (fetch_request self job_id) res]. split; [reflexivity|].
          eapply polls_terminal; [split|]; eassumption. }
        destruct (Qle_bool 0 poll_interval) eqn:Hsleep.
        { destruct (IH (after_sleep (after_request (after_clock_read w)
                                       (fetch_request self job_id) res) poll_interval))
            as (evs & Htrace & Hpolls).
          exists (EvRequest (fetch_request self job_id) res :: EvSleep poll_interval :: evs).
          split.
          - rewrite Htrace. simpl. rewrite <- !app_assoc. reflexivity.
          - eapply polls_again; [split| | |]; eassumption. }
        exists [EvRequest (fetch_request self job_id) res]. split; [reflexivity|].
        eapply polls_sleep_raised; [split| | |]; try eassumption. reflexivity.
      * exists [EvRequest (fetch_request self job_id) res]. split; [reflexivity|].
        eapply polls_status_raised; eassumption.
      * exfalso. exact (py_getitem_terminates _ _ Hstatus).
    + exists [EvRequest (fetch_request self job_id) res]. split; [reflexivity|].
      apply polls_fetch_raised. assumption.
    + exfalso. exact (fetch_outcome_terminates _ _ _ Hfetch).
Qed.

Lemma wait_for_job_polls (self : ImagesResource.t) (job_id : string)
    (poll_interval max_wait : Q) (env : Env) (fuel : nat) (w : World) :
  polls self job_id poll_interval (deadline_error env job_id max_wait)
    (events_since w (snd (run (ImagesResource.wait_for_job fuel self job_id
                                 poll_interval max_wait) env w)))
    (fst (run (ImagesResource.wait_for_job fuel self job_id poll_interval max_wait) env w)).
Proof.
  rewrite wait_for_job_run.
  destruct (wait_loop_polls self job_id poll_interval max_wait (clock env (clock_reads w))
              env fuel (after_clock_read w)) as (evs & Htrace & Hpolls).
  rewrite (events_since_app w _ evs Htrace). exact Hpolls.
Qed.

(** An exception raised by a fetch ends the run on the spot. *)
Lemma polls_fetch_error_is_last (self : ImagesResource.t) (job_id : string)
    (poll_interval : Q) (deadline : exception) (evs : list Event) (out : Outcome py) :
  polls self job_id poll_interval deadline evs out ->
  forall pre req res post e,
    evs = (pre ++ EvRequest req res :: post)%list ->
    fetch_outcome self job_id res = Raised e ->
    out = Raised e /\ post = [].
Proof.
  induction 1 as [ | | req0 res0 e0 Hraised | req0 res0 job0 e0 Hjob0 Hstatus0
                 | req0 res0 job0 status0 [Hjob0 _] Hterm
                 | req0 res0 job0 status0 e0 [Hjob0 _] Hterm Hneg He
                 | req0 res0 job0 status0 rest out [Hjob0 _] Hterm Hpos Hrest IH ];
    intros pre req res post e Hevs Hfetch.
  - destruct pre; discriminate.
  - destruct pre; discriminate.
  - destruct pre as [|ev [|ev' pre]]; try discriminate.
    injection Hevs as <- <- <-. split; congruence.
  - destruct pre as [|ev [|ev' pre]]; try discriminate.
    injection Hevs as <- <- <-. congruence.
  - destruct pre as [|ev [|ev' pre]]; try discriminate.
    injection Hevs as <- <- <-. congruence.
  - destruct pre as [|ev [|ev' pre]]; try discriminate.
    injection Hevs as <- <- <-. congruence.
  - destruct pre as [|ev [|ev' pre]].
    + injection Hevs as <- <- _. congruence.
    + discriminate.
    + injection Hevs as _ _ Hrest'. exact (IH pre req res post e Hrest' Hfetch).
Qed.




(** C8 (amended): for every job whose first status fetch reports status
    [failed], provided the deadline is not reached at the first deadline
    check (the elapsed time the loop computes there is below [max_wait]),
    [wait_for_job] returns that job record, having made exactly that one
    fetch and no sleep; nothing is raised. *)
Theorem wait_for_job_returns_failed_job
    (env : Env) (w : World) (fuel : nat) (self : ImagesResource.t) (job_id : string)
    (poll_interval max_wait : Q) (job : py) :
  (elapsed env (clock_reads w) (1 + clock_reads w) < max_wait)%Q ->
  reports self job_id (serve env (requests_sent w) (fetch_request self job_id))
    job (PyStr "failed") ->
  fst (run (ImagesResource.wait_for_job (S fuel) self job_id poll_interval max_wait) env w)
    = Returned job
  /\ events_since w
       (snd (run (ImagesResource.wait_for_job (S fuel) self job_id poll_interval max_wait)
               env w))
     = [EvRequest (fetch_request self job_id)
          (serve env (requests_sent w) (fetch_request self job_id))].
Proof.
  unfold elapsed. intros Hcheck Hrep. simpl in Hcheck.
  rewrite wait_for_job_run.
  rewrite (wait_loop_terminal _ _ _ _ _ _ _ _ job (PyStr "failed"));
    try assumption; try reflexivity.
  split; [reflexivity|]. apply events_since_app. reflexivity.
Qed.

Lemma wait_for_job_returns_failed_job_witness :
  fst (run (ImagesResource.wait_for_job 1 sample_images "job_42" 2 300)
         (sample_env (fun _ => job_response "failed")) initial_world)
    = Returned (job_record "failed")
  /\ events_since initial_world
       (snd (run (ImagesResource.wait_for_job 1 sample_images "job_42" 2 300)
               (sample_env (fun _ => job_response "failed")) initial_world))
     = [EvRequest (fetch_request sample_images "job_42")
          (serve (sample_env (fun _ => job_response "failed")) (requests_sent initial_world)
             (fetch_request sample_images "job_42"))].
Proof.
  apply (wait_for_job_returns_failed_job
           (sample_env (fun _ => job_response "failed")) initial_world 0
           sample_images "job_42" 2 300 (job_record "failed"));
    [reflexivity | split; reflexivity].
Defined.

(** C8 as stated fails: the job's first fetch would report [failed], yet
    with [max_wait = 0] the first deadline check fails and the call raises the
    timeout error without fetching. *)
Lemma wait_for_job_zero_max_wait_misses_failed_job :
  reports sample_images "job_42" (job_response "failed") (job_record "failed")
    (PyStr "failed")
  /\ run (ImagesResource.wait_for_job 10 sample_images "job_42" 2 0)
       (sample_env (fun _ => job_response "failed")) initial_world
     = (Raised (PrimisTimeoutError (PyStr "Job job_42 timed out after 0.0s")),
        {| clock_reads := 2; requests_sent := 0; trace := [] |}).
Proof. repeat split. Qed.

(** C10: in every call, a status fetch that raises is the last effect of
    the call (no fetch, no sleep and no retry follow it) and the call raises
    that very exception.  This holds for any exception the fetch raises, the
    typed errors of the transport layer among them. *)
Theorem wait_for_job_propagates_fetch_error
    (env : Env) (w : World) (fuel : nat) (self : ImagesResource.t) (job_id : string)
    (poll_interval max_wait : Q)
    (pre post : list Event) (req : Request.t) (res : transport_result) (e : exception) :
  events_since w
    (snd (run (ImagesResource.wait_for_job fuel self job_id poll_interval max_wait) env w))
    = (pre ++ EvRequest req res :: post)%list ->
  fetch_outcome self job_id res = Raised e ->
  fst (run (ImagesResource.wait_for_job fuel self job_id poll_interval max_wait) env w)
    = Raised e
  /\ post = [].
Proof.
  intros Hevs Hfetch.
  pose proof (wait_for_job_polls self job_id poll_interval max_wait env fuel w) as Hpolls.
  exact (polls_fetch_error_is_last _ _ _ _ _ _ Hpolls pre req res post e Hevs Hfetch).
Qed.

Lemma wait_for_job_propagates_fetch_error_witness :
  fst (run (ImagesResource.wait_for_job 10 sample_images "job_42" 2 300)
         (sample_env rate_limited_on_second) initial_world)
    = Raised (PrimisRateLimitError (PyStr "Slow down") 7)
  /\ @nil Event = [].
Proof.
  apply (wait_for_job_propagates_fetch_error
           (sample_env rate_limited_on_second) initial_world 10 sample_images "job_42" 2 300
           [EvRequest (fetch_request sample_images "job_42") (job_response "running");
            EvSleep 2]
           []
           (fetch_request sample_images "job_42")
           (json_response 429 [("Retry-After", "7")] (PyDict [("error", PyStr "Slow down")]))
           (PrimisRateLimitError (PyStr "Slow down") 7));
    reflexivity.
Defined.





(* ===================================================================== *)
(** ** Further properties of the transport layer                         *)
(* ===================================================================== *)

Lemma request_parse_error_witness :
  fst (run (HttpClient.request sample_client "DELETE" "/api/files/models/a.bin" None None)
         (canned no_content) initial_world)
    = Raised (PrimisError (PyStr "Invalid JSON response from /api/files/models/a.bin")
                (PyStr "PARSE_ERROR")).
Proof.
  apply (request_parse_error (canned no_content) initial_world sample_client
           "DELETE" "/api/files/models/a.bin" None None
           {| Response.status_code := 204; Response.headers := []; Response.json := None |});
    reflexivity.
Defined.

(** X3: a response whose status lies outside 400..599 and whose body parses is
    handed back verbatim, whatever JSON value it is. *)
Theorem request_returns_body_outside_error_range
    (env : Env) (w : World) (self : HttpClient.t) (method path : string)
    (json params : option py) (response : Response.t) (data : py) :
  serve env (requests_sent w) (HttpClient.request_kwargs self method path json params)
    = Responded response ->
  Response.json response = Some data ->
  Response.status_code response < 400 \/ 600 <= Response.status_code response ->
  fst (run (HttpClient.request self method path json params) env w) = Returned data.
Proof.
  intros Hres Hjson Hrange.
  apply (request_success env w self method path json params response Hres data Hjson).
  unfold Response.ok.
  destruct (Z.leb_spec 400 (Response.status_code response));
    destruct (Z.ltb_spec (Response.status_code response) 600); simpl; try reflexivity; lia.
Qed.

Lemma request_returns_body_outside_error_range_witness :
  fst (run (HttpClient.request sample_client "GET" "/api/batch/jobs" None None)
         (canned (json_response 200 [] (PyList [PyInt 1; PyNone]))) initial_world)
    = Returned (PyList [PyInt 1; PyNone]).
Proof.
  apply (request_returns_body_outside_error_range
           (canned (json_response 200 [] (PyList [PyInt 1; PyNone]))) initial_world
           sample_client "GET" "/api/batch/jobs" None None
           {| Response.status_code := 200; Response.headers := [];
              Response.json := Some (PyList [PyInt 1; PyNone]) |}
           (PyList [PyInt 1; PyNone]));
    [reflexivity | reflexivity | left; simpl; lia].
Defined.

(** X4: when [session.request] raises [requests.Timeout] or
    [requests.ConnectionError], the error that leaves [request] is a typed
    one that is not an API error and carries no HTTP status. *)
Theorem request_transport_failure
    (env : Env) (w : World) (self : HttpClient.t) (method path : string)
    (json params : option py) :
  serve env (requests_sent w) (HttpClient.request_kwargs self method path json params)
    = Raises_Timeout
  \/ (exists text,
         serve env (requests_sent w) (HttpClient.request_kwargs self method path json params)
           = Raises_ConnectionError text) ->
  exists e,
    fst (run (HttpClient.request self method path json params) env w) = Raised e
    /\ is_typed e = true
    /\ isinstance e cls_PrimisAPIError = false
    /\ status_code e = None
    /\ (code e = Some (PyStr "TIMEOUT") \/ code e = Some (PyStr "CONNECTION_ERROR")).
Proof.
  intros [Hres | [text Hres]].
  - rewrite (request_timeout env w self method path json params Hres).
    eexists. split; [reflexivity|]. repeat split. left. reflexivity.
  - rewrite (request_connection_error env w self method path json params text Hres).
    eexists. split; [reflexivity|]. repeat split. right. reflexivity.
Qed.

Lemma request_transport_failure_witness :
  exists e,
    fst (run (HttpClient.request sample_client "GET" "/api/files" None None)
           (canned (Raises_ConnectionError "Connection refused")) initial_world) = Raised e
    /\ is_typed e = true
    /\ isinstance e cls_PrimisAPIError = false
    /\ status_code e = None
    /\ (code e = Some (PyStr "TIMEOUT") \/ code e = Some (PyStr "CONNECTION_ERROR")).
Proof.
  apply (request_transport_failure (canned (Raises_ConnectionError "Connection refused"))
           initial_world sample_client "GET" "/api/files" None None).
  right. exists "Connection refused". reflexivity.
Defined.

(** X26: any other exception of [session.request] (a base endpoint without
    a scheme, too many redirects, a broken chunked body, ...) is caught by
    neither [except] clause and leaves [request] as it is: it is not an
    instance of [PrimisError]. *)
Theorem request_other_exception_escapes
    (env : Env) (w : World) (self : HttpClient.t) (method path : string)
    (json params : option py) (name text : string) :
  serve env (requests_sent w) (HttpClient.request_kwargs self method path json params)
    = Raises_Other name text ->
  fst (run (HttpClient.request self method path json params) env w)
    = Raised (builtin_exception (cls_requests name) text)
  /\ is_typed (builtin_exception (cls_requests name) text) = false.
Proof.
  intros Hres.
  rewrite (request_other_exception env w self method path json params name text Hres).
  split; reflexivity.
Qed.

Lemma request_other_exception_escapes_witness :
  fst (run (HttpClient.request
              (sample_session_client "prmis_live_0001" "localhost:3001" 30)
              "GET" "/api/files" None None)
         (canned (Raises_Other "InvalidSchema"
                    "No connection adapters were found for 'localhost:3001/api/files'"))
         initial_world)
    = Raised (builtin_exception (cls_requests "InvalidSchema")
                "No connection adapters were found for 'localhost:3001/api/files'")
  /\ is_typed (builtin_exception (cls_requests "InvalidSchema")
                 "No connection adapters were found for 'localhost:3001/api/files'") = false.
Proof.
  apply (request_other_exception_escapes
           (canned (Raises_Other "InvalidSchema"
                      "No connection adapters were found for 'localhost:3001/api/files'"))
           initial_world (sample_session_client "prmis_live_0001" "localhost:3001" 30)
           "GET" "/api/files" None None).
  reflexivity.
Defined.

(** X5: every API error that leaves [request] carries the status of the
    response that caused it, and that status lies in 400..599. *)
Theorem request_api_error_carries_status
    (env : Env) (w : World) (self : HttpClient.t) (method path : string)
    (json params : option py) (e : exception) :
  fst (run (HttpClient.request self method path json params) env w) = Raised e ->
  isinstance e cls_PrimisAPIError = true ->
  exists response,
    serve env (requests_sent w) (HttpClient.request_kwargs self method path json params)
      = Responded response
    /\ status_code e = Some (Response.status_code response)
    /\ 400 <= Response.status_code response < 600.
Proof.
  destruct (serve env (requests_sent w)
              (HttpClient.request_kwargs self method path json params))
    as [response| |text|name text] eqn:Hres;
    [ | | | rewrite (request_other_exception env w self method path json params name text Hres);
            intros [= <-]; discriminate ].
  - destruct (Response.json response) as [data|] eqn:Hjson.
    + destruct (Response.ok response) eqn:Hok.
      * rewrite (request_success env w self method path json params response Hres _ Hjson Hok).
        discriminate.
      * assert (Hrange : 400 <= Response.status_code response < 600).
        { unfold Response.ok in Hok.
          destruct (Z.leb_spec 400 (Response.status_code response));
            destruct (Z.ltb_spec (Response.status_code response) 600);
            simpl in Hok; try discriminate; lia. }
        destruct data as [ | b | z | q | s | l | items ];
          try (unfold run, HttpClient.request, bind, session_request; simpl;
               rewrite Hres, Hjson, Hok; simpl; intros [= <-]; discriminate).
        rewrite (request_error_branch env w self method path json params response Hres
                   items Hjson Hok).
        simpl.
        destruct (Z.eqb_spec (Response.status_code response) 401) as [H401|].
        { intros [= <-] _. exists response. rewrite H401. repeat split; lia. }
        destruct (Z.eqb_spec (Response.status_code response) 429) as [H429|].
        { destruct (py_int _) as [seconds|e'|] eqn:Hint.
          - intros [= <-] _. exists response. rewrite H429. repeat split; lia.
          - intros [= <-]. unfold py_int in Hint.
            destruct (headers_get_or _ _ _); try discriminate;
              try (injection Hint as <-; discriminate).
            destruct (int_of_str s); [discriminate|].
            destruct (parse_int_literal s); injection Hint as <-; discriminate.
          - discriminate. }
        intros [= <-] _. exists response. repeat split; lia.
    + rewrite (request_parse_error env w self method path json params response Hres Hjson).
      intros [= <-]. discriminate.
  - rewrite (request_timeout env w self method path json params Hres).
    intros [= <-]. discriminate.
  - rewrite (request_connection_error env w self method path json params text Hres).
    intros [= <-]. discriminate.
Qed.

Lemma request_api_error_carries_status_witness :
  exists response,
    serve (canned (json_response 429 [("retry-after", "12")] (PyDict [])))
      (requests_sent initial_world)
      (HttpClient.request_kwargs sample_client "GET" "/api/files" None None)
      = Responded response
    /\ status_code (PrimisRateLimitError (PyStr "HTTP 429") 12)
       = Some (Response.status_code response)
    /\ 400 <= Response.status_code response < 600.
Proof.
  apply (request_api_error_carries_status
           (canned (json_response 429 [("retry-after", "12")] (PyDict [])))
           initial_world sample_client "GET" "/api/files" None None
           (PrimisRateLimitError (PyStr "HTTP 429") 12)); reflexivity.
Defined.


(* ===================================================================== *)
(** ** Further properties of session construction                        *)
(* ===================================================================== *)

Lemma rstrip_slash_nonempty_end (s : string) (c : ascii) (kept : string) :
  rstrip_slash s = String c kept -> endswith (String c kept) "/" = false.
Proof.
  revert c kept. induction s as [|a s IH]; intros c kept; [discriminate|].
  simpl. destruct (rstrip_slash s) as [|c' kept'] eqn:Hrest.
  - destruct (Ascii.eqb_spec a "/") as [->|Hne]; [discriminate|].
    intros [= <- <-]. unfold endswith. simpl.
    destruct (Ascii.eqb_spec a "/"); [contradiction|reflexivity].
  - intros [= <- <-]. rewrite endswith_slash_cons by discriminate.
    apply (IH c' kept' eq_refl).
Qed.

Lemma rstrip_slash_no_trailing_slash (s : string) :
  endswith (rstrip_slash s) "/" = false.
Proof.
  destruct (rstrip_slash s) as [|c kept] eqn:H; [reflexivity|].
  exact (rstrip_slash_nonempty_end s c kept H).
Qed.

Lemma rstrip_slash_idempotent (s : string) :
  rstrip_slash (rstrip_slash s) = rstrip_slash s.
Proof. apply rstrip_slash_fixed, rstrip_slash_no_trailing_slash. Qed.

Lemma rstrip_slash_app_slash (s : string) :
  rstrip_slash (s ++ "/") = rstrip_slash s.
Proof.
  induction s as [|c s IH]; [reflexivity|].
  simpl. rewrite IH. reflexivity.
Qed.

(** X7: whatever base endpoint a session is built from, the one it keeps never
    ends in ['/']. *)
Theorem constructed_base_url_has_no_trailing_slash
    (api_key base_url : string) (timeout : Z) (env : Env) (w : World) (session : Primis.t) :
  fst (run (Primis.__init__ api_key base_url timeout) env w) = Returned session ->
  endswith (Primis.base_url session) "/" = false.
Proof.
  unfold run, Primis.__init__, HttpClient.__init__, bind.
  destruct (startswith api_key "prmis_"); simpl; [|discriminate].
  intros [= <-]. apply rstrip_slash_no_trailing_slash.
Qed.

(** X8: one more trailing ['/'] on the base endpoint changes nothing: the
    construction has the same outcome, session included. *)
Theorem construction_ignores_trailing_slash
    (api_key base_url : string) (timeout : Z) (env : Env) (w : World) :
  run (Primis.__init__ api_key (base_url ++ "/") timeout) env w
    = run (Primis.__init__ api_key base_url timeout) env w.
Proof.
  unfold run, Primis.__init__, HttpClient.__init__, bind.
  rewrite rstrip_slash_app_slash. reflexivity.
Qed.

(** X9: building a second session from what the first one reads back (same
    credential, its base endpoint, its timeout) gives the first one again. *)
Theorem construction_from_read_back
    (api_key base_url : string) (timeout : Z) (env : Env) (w : World) (session : Primis.t) :
  fst (run (Primis.__init__ api_key base_url timeout) env w) = Returned session ->
  run (Primis.__init__ api_key (Primis.base_url session)
         (HttpClient.timeout (Primis._client session))) env w
    = (Returned session, w).
Proof.
  unfold run, Primis.__init__, HttpClient.__init__, bind.
  destruct (startswith api_key "prmis_") eqn:Hkey; simpl; [|discriminate].
  intros [= <-]. unfold Primis.base_url. simpl.
  rewrite rstrip_slash_idempotent. reflexivity.
Qed.

(** X10: what every request of a constructed session looks like: the URL is the
    base endpoint without its trailing slashes followed by the path, the
    timeout is the session's, and the headers carry the bearer credential
    and the JSON content type (looked up without regard to case). *)
Theorem constructed_session_request
    (api_key base_url : string) (timeout : Z) (env : Env) (w : World) (session : Primis.t)
    (method path : string) (json params : option py) :
  fst (run (Primis.__init__ api_key base_url timeout) env w) = Returned session ->
  let req := HttpClient.request_kwargs (Primis._client session) method path json params in
  Request.url req = rstrip_slash base_url ++ path
  /\ Request.timeout req = timeout
  /\ Response.headers_get "authorization" (Request.headers req) = Some ("Bearer " ++ api_key)
  /\ Response.headers_get "content-type" (Request.headers req) = Some "application/json".
Proof.
  unfold run, Primis.__init__, HttpClient.__init__, bind.
  destruct (startswith api_key "prmis_"); simpl; [|discriminate].
  intros [= <-]. repeat split.
Qed.

Lemma constructed_base_url_has_no_trailing_slash_witness :
  endswith (Primis.base_url (sample_session "prmis_live_0001" "https://api.primis.example///" 30))
    "/" = false.
Proof.
  apply (constructed_base_url_has_no_trailing_slash "prmis_live_0001"
           "https://api.primis.example///" 30 (canned Raises_Timeout) initial_world).
  reflexivity.
Defined.

Lemma construction_from_read_back_witness :
  run (Primis.__init__ "prmis_live_0001"
         (Primis.base_url (sample_session "prmis_live_0001" "https://api.primis.example/" 45))
         (HttpClient.timeout
            (Primis._client (sample_session "prmis_live_0001" "https://api.primis.example/" 45))))
    (canned Raises_Timeout) initial_world
    = (Returned (sample_session "prmis_live_0001" "https://api.primis.example/" 45),
       initial_world).
Proof.
  apply (construction_from_read_back "prmis_live_0001" "https://api.primis.example/" 45
           (canned Raises_Timeout) initial_world). reflexivity.
Defined.

Lemma constructed_session_request_witness :
  let req := HttpClient.request_kwargs
               (Primis._client (sample_session "prmis_live_0001" "http://localhost:3001/" 30))
               "GET" "/api/files" None None in
  Request.url req = rstrip_slash "http://localhost:3001/" ++ "/api/files"
  /\ Request.timeout req = 30
  /\ Response.headers_get "authorization" (Request.headers req)
     = Some ("Bearer " ++ "prmis_live_0001")
  /\ Response.headers_get "content-type" (Request.headers req) = Some "application/json".
Proof.
  apply (constructed_session_request "prmis_live_0001" "http://localhost:3001/" 30
           (canned Raises_Timeout) initial_world). reflexivity.
Defined.

(* ===================================================================== *)
(** ** The resource namespaces                                           *)
(* ===================================================================== *)

(** A request followed by more work: the round trip happens first, and an
    exception it raises ends the whole computation. *)
Lemma bind_request {B : Type} (self : HttpClient.t) (method path : string)
    (json params : option py) (k : py -> M B) (env : Env) (w : World) :
  run (bind (HttpClient.request self method path json params) k) env w =
    let req := HttpClient.request_kwargs self method path json params in
    let w' := after_request w req (serve env (requests_sent w) req) in
    match fst (run (HttpClient.request self method path json params) env w) with
    | Returned r => run (k r) env w'
    | Raised e => (Raised e, w')
    | OutOfFuel => (OutOfFuel, w')
    end.
Proof.
  pose proof (request_one_round_trip env w self method path json params) as Hworld.
  unfold run, bind in *.
  destruct (HttpClient.request self method path json params env w) as [o w'].
  simpl in *. subst w'. destruct o; reflexivity.
Qed.

Ltac round_trip_of_request :=
  intros env w;
  repeat match goal with
         | |- context [HttpClient.get] => unfold HttpClient.get
         | |- context [HttpClient.post] => unfold HttpClient.post
         | |- context [HttpClient.delete] => unfold HttpClient.delete
         end;
  first
    [ apply request_one_round_trip
    | rewrite bind_request; cbv zeta;
      destruct (fst (run (HttpClient.request _ _ _ _ _) env w)); reflexivity ].

(** X11: the endpoint table: each operation of each namespace is exactly one
    round trip, with the method, path and body shown, and no query
    parameters; nothing else happens in the world. *)
Theorem endpoint_catalog (client : HttpClient.t)
    (folder filename job_id instance_id prompt model gpu_type : string)
    (negative_prompt name docker_image : option string)
    (num_images width height steps max_tokens : Z) (guidance_scale temperature : Q)
    (seed volume_size : option Z) :
  let sends := fun (A : Type) (c : M A) method path body =>
                 round_trip c (HttpClient.request_kwargs client method path body None) in
  sends py (FilesResource.list (FilesResource.__init__ client)) "GET" "/api/files" None
  /\ sends py (FilesResource.get_usage (FilesResource.__init__ client))
       "GET" "/api/files/usage" None
  /\ sends unit (FilesResource.delete (FilesResource.__init__ client) folder filename)
       "DELETE" ("/api/files/" ++ folder ++ "/" ++ filename) None
  /\ sends py (ImagesResource.estimate (ImagesResource.__init__ client) prompt num_images
                 width height steps)
       "POST" "/api/batch/estimate"
       (Some (PyDict [("prompt", PyStr prompt); ("numImages", PyInt num_images);
                      ("width", PyInt width); ("height", PyInt height);
                      ("steps", PyInt steps)]))
  /\ (exists payload,
         sends py (ImagesResource.generate (ImagesResource.__init__ client) prompt
                     negative_prompt num_images width height steps guidance_scale seed)
           "POST" "/api/batch/generate" (Some (PyDict payload)))
  /\ sends py (ImagesResource.get_job (ImagesResource.__init__ client) job_id)
       "GET" ("/api/batch/jobs/" ++ job_id) None
  /\ sends py (ImagesResource.list_jobs (ImagesResource.__init__ client))
       "GET" "/api/batch/jobs" None
  /\ sends py (TextResource.estimate (TextResource.__init__ client) prompt max_tokens model)
       "POST" "/api/inference/text/estimate"
       (Some (PyDict [("prompt", PyStr prompt); ("maxTokens", PyInt max_tokens);
                      ("model", PyStr model)]))
  /\ sends py (TextResource.generate (TextResource.__init__ client) prompt max_tokens
                 temperature model)
       "POST" "/api/inference/text/generate"
       (Some (PyDict [("prompt", PyStr prompt); ("maxTokens", PyInt max_tokens);
                      ("temperature", PyFloat temperature); ("model", PyStr model)]))
  /\ sends py (InstancesResource.list (InstancesResource.__init__ client))
       "GET" "/api/instances" None
  /\ sends py (InstancesResource.get_gpu_types (InstancesResource.__init__ client))
       "GET" "/api/instances/gpus" None
  /\ (exists payload,
         sends py (InstancesResource.launch (InstancesResource.__init__ client) gpu_type
                     name docker_image volume_size)
           "POST" "/api/instances/launch" (Some (PyDict payload)))
  /\ sends unit (InstancesResource.stop (InstancesResource.__init__ client) instance_id)
       "POST" ("/api/instances/" ++ instance_id ++ "/stop") None
  /\ sends unit (InstancesResource.terminate (InstancesResource.__init__ client) instance_id)
       "DELETE" ("/api/instances/" ++ instance_id) None
  /\ sends py (ApiKeysResource.list (ApiKeysResource.__init__ client))
       "GET" "/api/api-keys" None.
Proof.
  cbv zeta.
  unfold FilesResource.list, FilesResource.get_usage, FilesResource.delete,
    ImagesResource.estimate, ImagesResource.generate, ImagesResource.get_job,
    ImagesResource.list_jobs, TextResource.estimate, TextResource.generate,
    InstancesResource.list, InstancesResource.get_gpu_types, InstancesResource.launch,
    InstancesResource.stop, InstancesResource.terminate, ApiKeysResource.list.
  simpl FilesResource._client. simpl ImagesResource._client. simpl TextResource._client.
  simpl InstancesResource._client. simpl ApiKeysResource._client.
  repeat match goal with
         | |- _ /\ _ => split
         | |- exists _, _ => eexists
         | |- round_trip _ _ => round_trip_of_request
         end.
Qed.

(** X12: what each accessor hands back: the outcome of its request passed
    through [.get(key, default)].  An exception of the request is never
    replaced by the default; the default only stands in for a missing key. *)
Theorem accessor_results (client : HttpClient.t) (job_id : string) (env : Env) (w : World) :
  let got := fun path => fst (run (HttpClient.request client "GET" path None None) env w) in
  fst (run (FilesResource.get_usage (FilesResource.__init__ client)) env w)
    = unwrap "storage" (Some (PyDict [])) (got "/api/files/usage")
  /\ fst (run (ImagesResource.list_jobs (ImagesResource.__init__ client)) env w)
     = unwrap "jobs" (Some (PyList [])) (got "/api/batch/jobs")
  /\ fst (run (ImagesResource.get_job (ImagesResource.__init__ client) job_id) env w)
     = unwrap "job" None (got ("/api/batch/jobs/" ++ job_id))
  /\ fst (run (InstancesResource.list (InstancesResource.__init__ client)) env w)
     = unwrap "instances" (Some (PyList [])) (got "/api/instances")
  /\ fst (run (InstancesResource.get_gpu_types (InstancesResource.__init__ client)) env w)
     = unwrap "gpus" (Some (PyList [])) (got "/api/instances/gpus")
  /\ fst (run (ApiKeysResource.list (ApiKeysResource.__init__ client)) env w)
     = unwrap "keys" (Some (PyList [])) (got "/api/api-keys").
Proof.
  cbv zeta.
  unfold FilesResource.get_usage, ImagesResource.get_job, ImagesResource.list_jobs,
    InstancesResource.list, InstancesResource.get_gpu_types, ApiKeysResource.list,
    HttpClient.get.
  repeat split; rewrite bind_request; cbv zeta;
    destruct (fst (run (HttpClient.request _ _ _ _ _) env w)); reflexivity.
Qed.

(** The three readings of [.get(key, default)] on a returned body. *)
Lemma unwrap_returned (key : string) (default : option py) (body : py) :
  unwrap key default (Returned body) =
    match body with
    | PyDict items =>
        match lookup key items with
        | Some v => Returned v
        | None => Returned match default with
                           | Some d => d
                           | None => body
                           end
        end
    | _ => Raised (builtin_exception cls_AttributeError
                     ("'" ++ type_name body ++ "' object has no attribute 'get'"))
    end.
Proof. destruct body; reflexivity. Qed.

(** X13: a listing endpoint that answers with a bare JSON value that is not an
    object (an array, say) makes [list_jobs] raise the built-in
    [AttributeError], which is not a typed error, although the request itself
    succeeded. *)
Theorem list_jobs_needs_an_object
    (self : ImagesResource.t) (env : Env) (w : World) (response : Response.t) (body : py) :
  serve env (requests_sent w)
    (HttpClient.request_kwargs (ImagesResource._client self) "GET" "/api/batch/jobs" None None)
    = Responded response ->
  Response.json response = Some body ->
  Response.ok response = true ->
  (forall items, body <> PyDict items) ->
  exists e,
    fst (run (ImagesResource.list_jobs self) env w) = Raised e
    /\ exc_class e = cls_AttributeError
    /\ is_typed e = false.
Proof.
  intros Hres Hjson Hok Hshape.
  unfold ImagesResource.list_jobs, HttpClient.get. rewrite bind_request. cbv zeta.
  rewrite (request_success env w _ "GET" "/api/batch/jobs" None None response Hres body Hjson Hok).
  unfold run, lift. simpl.
  destruct body; try (eexists; repeat split; reflexivity).
  exfalso. exact (Hshape items eq_refl).
Qed.

Lemma list_jobs_needs_an_object_witness :
  exists e,
    fst (run (ImagesResource.list_jobs sample_images)
           (canned (json_response 200 [] (PyList [job_record "completed"]))) initial_world)
      = Raised e
    /\ exc_class e = cls_AttributeError
    /\ is_typed e = false.
Proof.
  apply (list_jobs_needs_an_object sample_images
           (canned (json_response 200 [] (PyList [job_record "completed"]))) initial_world
           {| Response.status_code := 200; Response.headers := [];
              Response.json := Some (PyList [job_record "completed"]) |}
           (PyList [job_record "completed"]));
    try reflexivity. intros items. discriminate.
Defined.

(** X14: the operations that return nothing need a JSON body all the same: an
    answer without one (a 204 with an empty body, say) makes them raise the
    parse error, whatever its status. *)
Theorem void_operations_need_json
    (client : HttpClient.t) (folder filename instance_id : string)
    (env : Env) (w : World) (response : Response.t) :
  (forall req, serve env (requests_sent w) req = Responded response) ->
  Response.json response = None ->
  fst (run (FilesResource.delete (FilesResource.__init__ client) folder filename) env w)
    = Raised (PrimisError
                (PyStr ("Invalid JSON response from /api/files/" ++ folder ++ "/" ++ filename))
                (PyStr "PARSE_ERROR"))
  /\ fst (run (InstancesResource.stop (InstancesResource.__init__ client) instance_id) env w)
     = Raised (PrimisError
                 (PyStr ("Invalid JSON response from /api/instances/" ++ instance_id ++ "/stop"))
                 (PyStr "PARSE_ERROR"))
  /\ fst (run (InstancesResource.terminate (InstancesResource.__init__ client) instance_id)
            env w)
     = Raised (PrimisError
                 (PyStr ("Invalid JSON response from /api/instances/" ++ instance_id))
                 (PyStr "PARSE_ERROR")).
Proof.
  intros Hres Hjson.
  unfold FilesResource.delete, InstancesResource.stop, InstancesResource.terminate,
    HttpClient.delete, HttpClient.post.
  repeat split; rewrite bind_request; cbv zeta;
    erewrite request_parse_error by (try apply Hres; exact Hjson); reflexivity.
Qed.

Lemma void_operations_need_json_witness :
  fst (run (FilesResource.delete (FilesResource.__init__ sample_client) "models" "a.bin")
         (canned no_content) initial_world)
    = Raised (PrimisError
                (PyStr ("Invalid JSON response from /api/files/" ++ "models" ++ "/" ++ "a.bin"))
                (PyStr "PARSE_ERROR"))
  /\ fst (run (InstancesResource.stop (InstancesResource.__init__ sample_client) "i-7")
            (canned no_content) initial_world)
     = Raised (PrimisError
                 (PyStr ("Invalid JSON response from /api/instances/" ++ "i-7" ++ "/stop"))
                 (PyStr "PARSE_ERROR"))
  /\ fst (run (InstancesResource.terminate (InstancesResource.__init__ sample_client) "i-7")
            (canned no_content) initial_world)
     = Raised (PrimisError
                 (PyStr ("Invalid JSON response from /api/instances/" ++ "i-7"))
                 (PyStr "PARSE_ERROR")).
Proof.
  apply (void_operations_need_json sample_client "models" "a.bin" "i-7"
           (canned no_content) initial_world
           {| Response.status_code := 204; Response.headers := []; Response.json := None |});
    [intros req; reflexivity | reflexivity].
Defined.

(** X15: with a JSON body and a status outside 400..599 the operations that
    return nothing return [None], whatever the body says. *)
Theorem void_operations_ignore_body
    (client : HttpClient.t) (folder filename instance_id : string)
    (env : Env) (w : World) (response : Response.t) (body : py) :
  (forall req, serve env (requests_sent w) req = Responded response) ->
  Response.json response = Some body ->
  Response.ok response = true ->
  fst (run (FilesResource.delete (FilesResource.__init__ client) folder filename) env w)
    = Returned tt
  /\ fst (run (InstancesResource.stop (InstancesResource.__init__ client) instance_id) env w)
     = Returned tt
  /\ fst (run (InstancesResource.terminate (InstancesResource.__init__ client) instance_id)
            env w)
     = Returned tt.
Proof.
  intros Hres Hjson Hok.
  unfold FilesResource.delete, InstancesResource.stop, InstancesResource.terminate,
    HttpClient.delete, HttpClient.post.
  repeat split; rewrite bind_request; cbv zeta;
    erewrite request_success by (try apply Hres; eassumption); reflexivity.
Qed.

Lemma void_operations_ignore_body_witness :
  fst (run (FilesResource.delete (FilesResource.__init__ sample_client) "models" "a.bin")
         (canned (json_response 200 [] (PyDict [("success", PyBool false)]))) initial_world)
    = Returned tt
  /\ fst (run (InstancesResource.stop (InstancesResource.__init__ sample_client) "i-7")
            (canned (json_response 200 [] (PyDict [("success", PyBool false)]))) initial_world)
     = Returned tt
  /\ fst (run (InstancesResource.terminate (InstancesResource.__init__ sample_client) "i-7")
            (canned (json_response 200 [] (PyDict [("success", PyBool false)]))) initial_world)
     = Returned tt.
Proof.
  apply (void_operations_ignore_body sample_client "models" "a.bin" "i-7"
           (canned (json_response 200 [] (PyDict [("success", PyBool false)]))) initial_world
           {| Response.status_code := 200; Response.headers := [];
              Response.json := Some (PyDict [("success", PyBool false)]) |}
           (PyDict [("success", PyBool false)]));
    [intros req; reflexivity | reflexivity | reflexivity].
Defined.

(** X16: the body [generate] posts: the six fixed keys in order, then
    [negativePrompt] only for a non-empty negative prompt, then [seed] for
    every seed that is not [None], zero included. *)
Theorem generate_request_body
    (self : ImagesResource.t) (prompt : string) (negative_prompt : option string)
    (num_images width height steps : Z) (guidance_scale : Q) (seed : option Z)
    (env : Env) (w : World) :
  exists payload,
    snd (run (ImagesResource.generate self prompt negative_prompt num_images width height
                steps guidance_scale seed) env w)
      = after_request w
          (HttpClient.request_kwargs (ImagesResource._client self) "POST"
             "/api/batch/generate" (Some (PyDict payload)) None)
          (serve env (requests_sent w)
             (HttpClient.request_kwargs (ImagesResource._client self) "POST"
                "/api/batch/generate" (Some (PyDict payload)) None))
    /\ map fst payload
       = (["prompt"; "numImages"; "width"; "height"; "steps"; "guidanceScale"]
            ++ (if truthy_str negative_prompt then ["negativePrompt"] else [])
            ++ match seed with
               | Some _ => ["seed"]
               | None => []
               end)%list
    /\ lookup "prompt" payload = Some (PyStr prompt)
    /\ lookup "numImages" payload = Some (PyInt num_images)
    /\ lookup "width" payload = Some (PyInt width)
    /\ lookup "height" payload = Some (PyInt height)
    /\ lookup "steps" payload = Some (PyInt steps)
    /\ lookup "guidanceScale" payload = Some (PyFloat guidance_scale)
    /\ lookup "negativePrompt" payload
       = (if truthy_str negative_prompt then Some (py_of_str negative_prompt) else None)
    /\ lookup "seed" payload = option_map PyInt seed.
Proof.
  unfold ImagesResource.generate, HttpClient.post.
  destruct negative_prompt as [[|c s]|]; destruct seed as [n|]; simpl;
    (eexists; split;
     [ rewrite bind_request; cbv zeta;
       destruct (fst (run (HttpClient.request _ _ _ _ _) env w)); reflexivity
     | repeat split ]).
Qed.

(** X17: the body [launch] posts: [gpuType] always; [name] and [dockerImage] only
    when non-empty; [volumeSize] only when it is neither [None] nor zero. *)
Theorem launch_request_body
    (self : InstancesResource.t) (gpu_type : string) (name docker_image : option string)
    (volume_size : option Z) (env : Env) (w : World) :
  exists payload,
    snd (run (InstancesResource.launch self gpu_type name docker_image volume_size) env w)
      = after_request w
          (HttpClient.request_kwargs (InstancesResource._client self) "POST"
             "/api/instances/launch" (Some (PyDict payload)) None)
          (serve env (requests_sent w)
             (HttpClient.request_kwargs (InstancesResource._client self) "POST"
                "/api/instances/launch" (Some (PyDict payload)) None))
    /\ map fst payload
       = (["gpuType"]
            ++ (if truthy_str name then ["name"] else [])
            ++ (if truthy_str docker_image then ["dockerImage"] else [])
            ++ (if truthy_int volume_size then ["volumeSize"] else []))%list
    /\ lookup "gpuType" payload = Some (PyStr gpu_type)
    /\ lookup "name" payload = (if truthy_str name then Some (py_of_str name) else None)
    /\ lookup "dockerImage" payload
       = (if truthy_str docker_image then Some (py_of_str docker_image) else None)
    /\ lookup "volumeSize" payload
       = (if truthy_int volume_size then Some (py_of_int volume_size) else None).
Proof.
  unfold InstancesResource.launch, HttpClient.post.
  destruct name as [[|c1 s1]|]; destruct docker_image as [[|c2 s2]|];
    destruct volume_size as [n|]; simpl; try destruct (n =? 0); simpl;
    (eexists; split;
     [ rewrite bind_request; cbv zeta;
       destruct (fst (run (HttpClient.request _ _ _ _ _) env w)); reflexivity
     | repeat split ]).
Qed.

(* ===================================================================== *)
(** ** Further properties of the polling loop                            *)
(* ===================================================================== *)

Lemma in_completed_or_failed (status : py) :
  py_in_strs status ["completed"; "failed"] = true ->
  status = PyStr "completed" \/ status = PyStr "failed".
Proof.
  destruct status; simpl; try discriminate.
  destruct (String.eqb_spec s "completed") as [->|_]; [left; reflexivity|].
  destruct (String.eqb_spec s "failed") as [->|_]; [right; reflexivity|discriminate].
Qed.

Lemma polls_returned (self : ImagesResource.t) (job_id : string) (poll_interval : Q)
    (deadline : exception) (evs : list Event) (out : Outcome py) :
  polls self job_id poll_interval deadline evs out ->
  forall job,
    out = Returned job ->
    exists pre req res status,
      evs = (pre ++ [EvRequest req res])%list
      /\ reports self job_id res job status
      /\ py_in_strs status ["completed"; "failed"] = true.
Proof.
  induction 1 as [ | | req0 res0 e0 Hraised | req0 res0 job0 e0 Hjob0 Hstatus0
                 | req0 res0 job0 status0 Hrep0 Hterm
                 | req0 res0 job0 status0 e0 Hrep0 Hterm Hneg He
                 | req0 res0 job0 status0 rest out Hrep0 Hterm Hpos Hrest IH ];
    intros job Hout; try discriminate.
  - injection Hout as <-. exists [], req0, res0, status0. repeat split; try assumption;
      apply Hrep0.
  - destruct (IH job Hout) as (pre & req & res & status & Hevs & Hrep & Hdone).
    exists (EvRequest req0 res0 :: EvSleep poll_interval :: pre), req, res, status.
    rewrite Hevs. repeat split; try assumption; apply Hrep.
Qed.

(** X18: a job that [wait_for_job] returns is the one its last fetch reported,
    and its status is [completed] or [failed]; no event follows that fetch. *)
Theorem wait_for_job_returns_terminal_job
    (env : Env) (w : World) (fuel : nat) (self : ImagesResource.t) (job_id : string)
    (poll_interval max_wait : Q) (job : py) :
  fst (run (ImagesResource.wait_for_job fuel self job_id poll_interval max_wait) env w)
    = Returned job ->
  exists pre req res status,
    events_since w
      (snd (run (ImagesResource.wait_for_job fuel self job_id poll_interval max_wait) env w))
      = (pre ++ [EvRequest req res])%list
    /\ reports self job_id res job status
    /\ (status = PyStr "completed" \/ status = PyStr "failed").
Proof.
  intros Hout.
  pose proof (wait_for_job_polls self job_id poll_interval max_wait env fuel w) as Hpolls.
  destruct (polls_returned _ _ _ _ _ _ Hpolls job Hout)
    as (pre & req & res & status & Hevs & Hrep & Hdone).
  exists pre, req, res, status. repeat split; try assumption; try apply Hrep.
  apply in_completed_or_failed, Hdone.
Qed.

Lemma wait_for_job_returns_terminal_job_witness :
  exists pre req res status,
    events_since initial_world
      (snd (run (ImagesResource.wait_for_job 10 sample_images "job_42" 2 300)
              (sample_env three_polls) initial_world))
      = (pre ++ [EvRequest req res])%list
    /\ reports sample_images "job_42" res (job_record "completed") status
    /\ (status = PyStr "completed" \/ status = PyStr "failed").
Proof.
  apply (wait_for_job_returns_terminal_job (sample_env three_polls) initial_world 10
           sample_images "job_42" 2 300 (job_record "completed")).
  reflexivity.
Defined.

(** The effects of the loop, in order: every request is the GET of the
    job's status, answered by the service in sequence; every sleep lasts
    [poll_interval] and follows a fetch; the run stops either at a deadline
    check (or for lack of fuel), right after a sleep or before any fetch, or
    right after a fetch. *)
Lemma wait_loop_events (self : ImagesResource.t) (job_id : string)
    (poll_interval max_wait start_time : Q) (env : Env) (fuel : nat) :
  forall w,
  exists n,
    let answers := map (fun i => serve env (i + requests_sent w)%nat
                                   (fetch_request self job_id)) (seq 0 n) in
    let r := run (ImagesResource.wait_loop fuel self job_id poll_interval max_wait
                    start_time) env w in
    (n <= fuel)%nat /\
    ((trace (snd r) = (trace w ++ poll_events self job_id poll_interval answers)%list
      /\ (fst r = OutOfFuel \/ fst r = Raised (deadline_error env job_id max_wait)))
     \/
     (trace (snd r)
      = (trace w ++ poll_events self job_id poll_interval answers
           ++ [EvRequest (fetch_request self job_id)
                 (serve env (n + requests_sent w)%nat (fetch_request self job_id))])%list
      /\ (n < fuel)%nat
      /\ fst r <> OutOfFuel)).
Proof.
  induction fuel as [|fuel IH]; intros w.
  - exists 0%nat. cbv zeta. split; [lia|]. left. split; [symmetry; apply app_nil_r|].
    left. reflexivity.
  - rewrite wait_loop_step.
    destruct (float_lt _ max_wait).
    2:{ exists 0%nat. cbv zeta. split; [lia|]. left.
        split; [symmetry; apply app_nil_r|]. right. reflexivity. }
    cbv zeta.
    set (res := serve env (requests_sent w) (fetch_request self job_id)).
    assert (Hstop : forall out : Outcome py,
               out <> OutOfFuel ->
               exists n,
                 (n <= S fuel)%nat /\
                 ((trace (snd (out, after_request (after_clock_read w)
                                      (fetch_request self job_id) res))
                   = (trace w ++ poll_events self job_id poll_interval
                                   (map (fun i => serve env (i + requests_sent w)%nat
                                                    (fetch_request self job_id)) (seq 0 n)))%list
                   /\ (fst (out, after_request (after_clock_read w)
                                   (fetch_request self job_id) res) = OutOfFuel
                       \/ fst (out, after_request (after_clock_read w)
                                      (fetch_request self job_id) res)
                          = Raised (deadline_error env job_id max_wait)))
                  \/
                  (trace (snd (out, after_request (after_clock_read w)
                                      (fetch_request self job_id) res))
                   = (trace w ++ poll_events self job_id poll_interval
                                   (map (fun i => serve env (i + requests_sent w)%nat
                                                    (fetch_request self job_id)) (seq 0 n))
                        ++ [EvRequest (fetch_request self job_id)
                              (serve env (n + requests_sent w)%nat
                                 (fetch_request self job_id))])%list
                   /\ (n < S fuel)%nat
                   /\ fst (out, after_request (after_clock_read w)
                                  (fetch_request self job_id) res) <> OutOfFuel))).
    { intros out Hout. exists 0%nat. split; [lia|]. right.
      split; [reflexivity|]. split; [lia|exact Hout]. }
    destruct (fetch_outcome self job_id res) as [job|e|] eqn:Hfetch;
      [ | apply Hstop; discriminate
        | exfalso; exact (fetch_outcome_terminates _ _ _ Hfetch) ].
    destruct (py_getitem job "status") as [status|e|] eqn:Hstatus;
      [ | apply Hstop; discriminate
        | exfalso; exact (py_getitem_terminates _ _ Hstatus) ].
    destruct (py_in_strs status ["completed"; "failed"]); [apply Hstop; discriminate|].
    destruct (Qle_bool 0 poll_interval); [|apply Hstop; discriminate].
    clear Hstop.
    destruct (IH (after_sleep (after_request (after_clock_read w)
                                 (fetch_request self job_id) res) poll_interval))
      as (n & Hn & Hcases).
    cbv zeta in Hcases. simpl requests_sent in Hcases. simpl trace in Hcases.
    exists (S n). split; [lia|].
    assert (Hanswers :
              map (fun i => serve env (i + requests_sent w)%nat (fetch_request self job_id))
                (seq 0 (S n))
              = res :: map (fun i => serve env (i + S (requests_sent w))%nat
                                       (fetch_request self job_id)) (seq 0 n)).
    { simpl. f_equal. rewrite <- seq_shift, map_map.
      apply map_ext. intros i. f_equal. lia. }
    rewrite Hanswers. simpl poll_events.
    replace (S n + requests_sent w)%nat with (n + S (requests_sent w))%nat by lia.
    destruct Hcases as [(Htrace & Hout) | (Htrace & Hlt & Hout)].
    + left. split; [|exact Hout]. rewrite Htrace. rewrite <- !app_assoc. reflexivity.
    + right. split; [|split; [lia|exact Hout]].
      rewrite Htrace. rewrite <- !app_assoc. reflexivity.
Qed.

(** X19: the effects of [wait_for_job], in order: it only ever sends the GET of
    the job's status, the k-th one answered by the service's k-th answer; it
    sleeps exactly [poll_interval] after a fetch and at no other time; and it
    ends either right after a fetch or at a deadline check (out of fuel
    apart), in which case every fetch was followed by a sleep. *)
Theorem wait_for_job_effects
    (env : Env) (w : World) (fuel : nat) (self : ImagesResource.t) (job_id : string)
    (poll_interval max_wait : Q) :
  exists n,
    let answers := map (fun i => serve env (i + requests_sent w)%nat
                                   (fetch_request self job_id)) (seq 0 n) in
    let r := run (ImagesResource.wait_for_job fuel self job_id poll_interval max_wait) env w in
    (n <= fuel)%nat /\
    ((events_since w (snd r) = poll_events self job_id poll_interval answers
      /\ (fst r = OutOfFuel \/ fst r = Raised (deadline_error env job_id max_wait)))
     \/
     (events_since w (snd r)
      = (poll_events self job_id poll_interval answers
           ++ [EvRequest (fetch_request self job_id)
                 (serve env (n + requests_sent w)%nat (fetch_request self job_id))])%list
      /\ fst r <> OutOfFuel)).
Proof.
  rewrite wait_for_job_run.
  destruct (wait_loop_events self job_id poll_interval max_wait (clock env (clock_reads w))
              env fuel (after_clock_read w)) as (n & Hn & Hcases).
  exists n. cbv zeta in *. simpl requests_sent in Hcases. simpl trace in Hcases.
  split; [exact Hn|].
  destruct Hcases as [(Htrace & Hout) | (Htrace & _ & Hout)].
  - left. split; [apply events_since_app; exact Htrace|exact Hout].
  - right. split; [apply events_since_app; exact Htrace|exact Hout].
Qed.

(** Once some later reading [last] of the clock shows the deadline reached,
    the loop cannot outlive it. *)
Lemma wait_loop_bounded (self : ImagesResource.t) (job_id : string)
    (poll_interval max_wait start_time : Q) (env : Env) (last : nat) :
  (max_wait <= float_sub env (clock env last) start_time)%Q ->
  forall fuel w,
    (clock_reads w <= last)%nat ->
    (last - clock_reads w < fuel)%nat ->
    exists evs,
      trace (snd (run (ImagesResource.wait_loop fuel self job_id poll_interval max_wait
                         start_time) env w)) = (trace w ++ evs)%list
      /\ fst (run (ImagesResource.wait_loop fuel self job_id poll_interval max_wait
                     start_time) env w) <> OutOfFuel
      /\ (List.length (requests_of evs) <= last - clock_reads w)%nat.
Proof.
  intros Hlast. induction fuel as [|fuel IH]; intros w Hle Hfuel; [lia|].
  rewrite wait_loop_step.
  destruct (float_lt (float_sub env (clock env (clock_reads w)) start_time) max_wait) eqn:Hcheck.
  2:{ exists []. split; [symmetry; apply app_nil_r|]. split; [discriminate|simpl; lia]. }
  assert (Hlt : (clock_reads w < last)%nat).
  { destruct (Nat.eq_dec (clock_reads w) last) as [Heq|]; [|lia].
    exfalso. apply float_lt_true in Hcheck. rewrite Heq in Hcheck.
    exact (Qlt_not_le _ _ Hcheck Hlast). }
  cbv zeta.
  set (res := serve env (requests_sent w) (fetch_request self job_id)).
  assert (Hstop : forall out : Outcome py,
             out <> OutOfFuel ->
             exists evs,
               trace (snd (out, after_request (after_clock_read w)
                                  (fetch_request self job_id) res)) = (trace w ++ evs)%list
               /\ fst (out, after_request (after_clock_read w)
                              (fetch_request self job_id) res) <> OutOfFuel
               /\ (List.length (requests_of evs) <= last - clock_reads w)%nat).
  { intros out Hout. exists [EvRequest (fetch_request self job_id) res].
    split; [reflexivity|]. split; [exact Hout|simpl; lia]. }
  destruct (fetch_outcome self job_id res) as [job|e|] eqn:Hfetch;
    [ | apply Hstop; discriminate
      | exfalso; exact (fetch_outcome_terminates _ _ _ Hfetch) ].
  destruct (py_getitem job "status") as [status|e|] eqn:Hstatus;
    [ | apply Hstop; discriminate
      | exfalso; exact (py_getitem_terminates _ _ Hstatus) ].
  destruct (py_in_strs status ["completed"; "failed"]); [apply Hstop; discriminate|].
  destruct (Qle_bool 0 poll_interval); [|apply Hstop; discriminate].
  clear Hstop.
  destruct (IH (after_sleep (after_request (after_clock_read w)
                               (fetch_request self job_id) res) poll_interval))
    as (evs & Htrace & Hout & Hcount); simpl clock_reads; try lia.
  exists (EvRequest (fetch_request self job_id) res :: EvSleep poll_interval :: evs).
  split; [|split; [exact Hout|]].
  - rewrite Htrace. simpl. rewrite <- !app_assoc. reflexivity.
  - simpl clock_reads in Hcount. simpl. lia.
Qed.

(** X20: the loop ends once the clock has passed the deadline: if the
    elapsed time computed from the reading of the (N+1)-th deadline check is
    not below [max_wait], a call with more than N units of fuel returns or
    raises, and it makes at most N fetches. *)
Theorem wait_for_job_terminates
    (env : Env) (w : World) (fuel checks : nat) (self : ImagesResource.t) (job_id : string)
    (poll_interval max_wait : Q) :
  (max_wait <= elapsed env (clock_reads w) (S checks + clock_reads w))%Q ->
  (checks < fuel)%nat ->
  fst (run (ImagesResource.wait_for_job fuel self job_id poll_interval max_wait) env w)
    <> OutOfFuel
  /\ (List.length
        (requests_of
           (events_since w
              (snd (run (ImagesResource.wait_for_job fuel self job_id poll_interval max_wait)
                      env w)))) <= checks)%nat.
Proof.
  unfold elapsed. intros Hdeadline Hfuel. rewrite wait_for_job_run.
  destruct (wait_loop_bounded self job_id poll_interval max_wait (clock env (clock_reads w))
              env (S checks + clock_reads w) Hdeadline fuel (after_clock_read w))
    as (evs & Htrace & Hout & Hcount); simpl clock_reads; try lia.
  split; [exact Hout|].
  rewrite (events_since_app w _ evs Htrace). simpl clock_reads in Hcount. lia.
Qed.

(** The same from the exact readings, for a subtraction that rounds as
    floats do. *)
Lemma wait_for_job_terminates_exact
    (env : Env) (w : World) (fuel checks : nat) (self : ImagesResource.t) (job_id : string)
    (poll_interval max_wait : Q) :
  subtraction_keeps env max_wait ->
  (max_wait <= clock env (S checks + clock_reads w) - clock env (clock_reads w))%Q ->
  (checks < fuel)%nat ->
  fst (run (ImagesResource.wait_for_job fuel self job_id poll_interval max_wait) env w)
    <> OutOfFuel
  /\ (List.length
        (requests_of
           (events_since w
              (snd (run (ImagesResource.wait_for_job fuel self job_id poll_interval max_wait)
                      env w)))) <= checks)%nat.
Proof.
  intros Hround Hdeadline Hfuel. rewrite wait_for_job_run.
  destruct (wait_loop_bounded self job_id poll_interval max_wait (clock env (clock_reads w))
              env (S checks + clock_reads w) (Hround _ _ Hdeadline) fuel (after_clock_read w))
    as (evs & Htrace & Hout & Hcount); simpl clock_reads; try lia.
  split; [exact Hout|].
  rewrite (events_since_app w _ evs Htrace). simpl clock_reads in Hcount. lia.
Qed.

Lemma wait_for_job_terminates_witness :
  fst (run (ImagesResource.wait_for_job 4 sample_images "job_42" 2 5)
         (sample_env (fun _ => job_response "running")) initial_world)
    <> OutOfFuel
  /\ (List.length
        (requests_of
           (events_since initial_world
              (snd (run (ImagesResource.wait_for_job 4 sample_images "job_42" 2 5)
                      (sample_env (fun _ => job_response "running")) initial_world))))
      <= 3)%nat.
Proof.
  apply (wait_for_job_terminates (sample_env (fun _ => job_response "running"))
           initial_world 4 3 sample_images "job_42" 2 5);
    [discriminate | lia].
Defined.

(** The only [PrimisTimeoutError] a status fetch can raise is the one of a
    timed-out request, whose message starts differently from the one of the
    polling deadline. *)
Lemma fetch_error_is_not_the_deadline (self : ImagesResource.t) (job_id : string)
    (res : transport_result) (env : Env) (max_wait : Q) :
  fetch_outcome self job_id res <> Raised (deadline_error env job_id max_wait).
Proof.
  unfold fetch_outcome, ImagesResource.get_job,
    HttpClient.get, HttpClient.request, bind, session_request, lift, raise, ret.
  simpl.
  destruct res as [response| |text|name text]; simpl; try discriminate.
  destruct (Response.json response) as [data|]; simpl; try discriminate.
  destruct (Response.ok response); simpl.
  - destruct data; simpl; try discriminate. destruct (lookup "job" items); discriminate.
  - destruct data; simpl; try discriminate.
    destruct (lookup "error" items); destruct (lookup "code" items); simpl;
      destruct (Response.status_code response =? 401); simpl; try discriminate;
      destruct (Response.status_code response =? 429); simpl; try discriminate;
      destruct (headers_get_or _ _ _); simpl; try discriminate;
      destruct (int_of_str _); simpl; try discriminate;
      destruct (parse_int_literal _); discriminate.
Qed.

Lemma wait_loop_deadline_elapsed (self : ImagesResource.t) (job_id : string)
    (poll_interval max_wait start_time : Q) (env : Env) (fuel : nat) :
  forall w,
    fst (run (ImagesResource.wait_loop fuel self job_id poll_interval max_wait start_time)
           env w) = Raised (deadline_error env job_id max_wait) ->
    (max_wait
     <= float_sub env
          (clock env (pred (clock_reads
                              (snd (run (ImagesResource.wait_loop fuel self job_id
                                           poll_interval max_wait start_time) env w)))))
          start_time)%Q.
Proof.
  induction fuel as [|fuel IH]; intros w; [discriminate|].
  rewrite wait_loop_step.
  destruct (float_lt (float_sub env (clock env (clock_reads w)) start_time) max_wait)
    eqn:Hcheck.
  2:{ intros _. simpl. apply float_lt_false. exact Hcheck. }
  cbv zeta.
  destruct (fetch_outcome self job_id _) as [job|e|] eqn:Hfetch.
  - destruct (py_getitem job "status") as [status|e|] eqn:Hstatus.
    + destruct (py_in_strs status ["completed"; "failed"]).
      { intros Hout. cbn [fst] in Hout. discriminate Hout. }
      destruct (Qle_bool 0 poll_interval); [apply IH|].
      intros Hout.
      cbv [fst deadline_error PrimisTimeoutError PrimisError_init builtin_exception] in Hout.
      discriminate Hout.
    + cbn [fst]. intros [= ->]. exfalso. destruct job; simpl in Hstatus; try discriminate.
      destruct (lookup "status" items); discriminate.
    + intros Hout. cbn [fst] in Hout. discriminate Hout.
  - cbn [fst]. intros [= ->]. exfalso.
    exact (fetch_error_is_not_the_deadline _ _ _ _ _ Hfetch).
  - intros Hout. cbn [fst] in Hout. discriminate Hout.
Qed.

(** X21: the polling deadline is never reported before the loop has seen it:
    when [wait_for_job] raises its own timeout error, the elapsed time it
    computed from the last clock reading it took is not below [max_wait]. *)
Theorem wait_for_job_deadline_not_early
    (env : Env) (w : World) (fuel : nat) (self : ImagesResource.t) (job_id : string)
    (poll_interval max_wait : Q) :
  fst (run (ImagesResource.wait_for_job fuel self job_id poll_interval max_wait) env w)
    = Raised (deadline_error env job_id max_wait) ->
  (max_wait
   <= elapsed env (clock_reads w)
        (pred (clock_reads
                 (snd (run (ImagesResource.wait_for_job fuel self job_id
                              poll_interval max_wait) env w)))))%Q.
Proof.
  unfold elapsed. rewrite wait_for_job_run. apply wait_loop_deadline_elapsed.
Qed.

Lemma wait_for_job_deadline_not_early_witness :
  (5 <= elapsed (sample_env (fun _ => job_response "running")) (clock_reads initial_world)
          (pred (clock_reads
                   (snd (run (ImagesResource.wait_for_job 9 sample_images "job_42" 2 5)
                           (sample_env (fun _ => job_response "running")) initial_world)))))%Q.
Proof.
  apply (wait_for_job_deadline_not_early (sample_env (fun _ => job_response "running"))
           initial_world 9 sample_images "job_42" 2 5).
  reflexivity.
Defined.

(** X22: a deadline already reached at the first check (the elapsed time
    computed there is not below [max_wait]) ends the call at once: the
    timeout error is raised and nothing was sent. *)
Theorem wait_for_job_expired_deadline
    (env : Env) (w : World) (fuel : nat) (self : ImagesResource.t) (job_id : string)
    (poll_interval max_wait : Q) :
  (max_wait <= elapsed env (clock_reads w) (S (clock_reads w)))%Q ->
  fst (run (ImagesResource.wait_for_job (S fuel) self job_id poll_interval max_wait) env w)
    = Raised (deadline_error env job_id max_wait)
  /\ events_since w
       (snd (run (ImagesResource.wait_for_job (S fuel) self job_id poll_interval max_wait)
               env w)) = [].
Proof.
  unfold elapsed. intros Hcheck.
  rewrite wait_for_job_run, wait_loop_deadline by exact Hcheck.
  split; [reflexivity|]. apply events_since_app. symmetry. apply app_nil_r.
Qed.

(** The same from the exact readings, for a subtraction that rounds as
    floats do: any [max_wait] that is not above the time between the first
    two readings, zero and negative values among them when the clock does not
    run backwards. *)
Lemma wait_for_job_expired_deadline_exact
    (env : Env) (w : World) (fuel : nat) (self : ImagesResource.t) (job_id : string)
    (poll_interval max_wait : Q) :
  subtraction_keeps env max_wait ->
  (max_wait <= clock env (S (clock_reads w)) - clock env (clock_reads w))%Q ->
  fst (run (ImagesResource.wait_for_job (S fuel) self job_id poll_interval max_wait) env w)
    = Raised (deadline_error env job_id max_wait)
  /\ events_since w
       (snd (run (ImagesResource.wait_for_job (S fuel) self job_id poll_interval max_wait)
               env w)) = [].
Proof.
  intros Hround Hcheck.
  rewrite wait_for_job_run, wait_loop_deadline by exact (Hround _ _ Hcheck).
  split; [reflexivity|]. apply events_since_app. symmetry. apply app_nil_r.
Qed.

Lemma wait_for_job_expired_deadline_witness :
  fst (run (ImagesResource.wait_for_job 1 sample_images "job_42" 2 (-1))
         (sample_env (fun _ => job_response "completed")) initial_world)
    = Raised (deadline_error (sample_env (fun _ => job_response "completed")) "job_42" (-1))
  /\ events_since initial_world
       (snd (run (ImagesResource.wait_for_job 1 sample_images "job_42" 2 (-1))
               (sample_env (fun _ => job_response "completed")) initial_world)) = [].
Proof.
  apply (wait_for_job_expired_deadline (sample_env (fun _ => job_response "completed"))
           initial_world 0 sample_images "job_42" 2 (-1)).
  discriminate.
Defined.

(** X23: when the first deadline check passes (the elapsed time computed
    there is below [max_wait]), a fetched job whose status cannot be read (no [status] key, or a job
    that is not an object) ends the call with the built-in exception of the
    subscript, after that one fetch and without a sleep. *)
Theorem wait_for_job_unreadable_status
    (env : Env) (w : World) (fuel : nat) (self : ImagesResource.t) (job_id : string)
    (poll_interval max_wait : Q) (job : py) (e : exception) :
  (elapsed env (clock_reads w) (S (clock_reads w)) < max_wait)%Q ->
  fetch_outcome self job_id (serve env (requests_sent w) (fetch_request self job_id))
    = Returned job ->
  py_getitem job "status" = Raised e ->
  fst (run (ImagesResource.wait_for_job (S fuel) self job_id poll_interval max_wait) env w)
    = Raised e
  /\ is_typed e = false
  /\ events_since w
       (snd (run (ImagesResource.wait_for_job (S fuel) self job_id poll_interval max_wait)
               env w))
     = [EvRequest (fetch_request self job_id)
          (serve env (requests_sent w) (fetch_request self job_id))].
Proof.
  unfold elapsed. intros Hcheck Hjob Hstatus. apply float_lt_true in Hcheck.
  rewrite wait_for_job_run, wait_loop_step.
  change (clock_reads (after_clock_read w)) with (S (clock_reads w)).
  change (requests_sent (after_clock_read w)) with (requests_sent w).
  rewrite Hcheck. cbv zeta. rewrite Hjob, Hstatus.
  split; [reflexivity|]. split.
  - destruct job; simpl in Hstatus; try (injection Hstatus as <-; reflexivity).
    destruct (lookup "status" items); [discriminate|]. injection Hstatus as <-. reflexivity.
  - apply events_since_app. reflexivity.
Qed.

Lemma wait_for_job_unreadable_status_witness :
  fst (run (ImagesResource.wait_for_job 1 sample_images "job_42" 2 300)
         (sample_env (fun _ => jobs_without_status)) initial_world)
    = Raised (builtin_exception cls_KeyError "status")
  /\ is_typed (builtin_exception cls_KeyError "status") = false
  /\ events_since initial_world
       (snd (run (ImagesResource.wait_for_job 1 sample_images "job_42" 2 300)
               (sample_env (fun _ => jobs_without_status)) initial_world))
     = [EvRequest (fetch_request sample_images "job_42")
          (serve (sample_env (fun _ => jobs_without_status)) (requests_sent initial_world)
             (fetch_request sample_images "job_42"))].
Proof.
  apply (wait_for_job_unreadable_status (sample_env (fun _ => jobs_without_status))
           initial_world 0 sample_images "job_42" 2 300
           (PyDict [("id", PyStr "job_42")]) (builtin_exception cls_KeyError "status"));
    reflexivity.
Defined.



(** X25: the two submitting operations hand back the outcome of their POST
    passed through [.get(key, response)]: the record under [job] (or
    [instance]) when the body has that key, the whole body otherwise; an
    exception of the request passes unchanged. *)
Theorem submit_results
    (client : HttpClient.t) (prompt gpu_type : string)
    (negative_prompt name docker_image : option string)
    (num_images width height steps : Z) (guidance_scale : Q) (seed volume_size : option Z)
    (env : Env) (w : World) :
  (exists payload,
      fst (run (ImagesResource.generate (ImagesResource.__init__ client) prompt
                  negative_prompt num_images width height steps guidance_scale seed) env w)
      = unwrap "job" None
          (fst (run (HttpClient.request client "POST" "/api/batch/generate"
                       (Some (PyDict payload)) None) env w)))
  /\
  (exists payload,
      fst (run (InstancesResource.launch (InstancesResource.__init__ client) gpu_type
                  name docker_image volume_size) env w)
      = unwrap "instance" None
          (fst (run (HttpClient.request client "POST" "/api/instances/launch"
                       (Some (PyDict payload)) None) env w))).
Proof.
  unfold ImagesResource.generate, InstancesResource.launch, HttpClient.post.
  cbv zeta.
  split;
    match goal with
    | |- context [HttpClient.request _ _ _ (Some (PyDict ?p)) None] => exists p
    end;
    rewrite bind_request; cbv zeta;
    destruct (fst (run (HttpClient.request _ _ _ _ _) env w)); reflexivity.
Qed.

